(** * Smart-Home security controller: arming / alarm state machine

    A shallow embedding of [SecuritySystem.cpp] (class [SecuritySystem],
    declared in [SecuritySystem.h]).  The controller is a single-threaded
    polling loop; the embedding threads the object's fields explicitly and
    feeds the hardware reads (keypad scans, sensor pins, millisecond clock)
    in as inputs.

    - [int codeIndex] is a [Z]; the guards of the code keep it in [0,4].
    - [uint32_t] timestamps are [Z] with the wrap-around written out ([u32]).
    - [char inputCode[5]] is a [list ascii] updated by index.
    - [float] distances are rationals: the code only compares them with the
      constants 2, 10, 12 and 400, and comparisons of finite floats are exact.
    - Calls to the display, LED, buzzer and SD-card log are recorded, in
      order, in the [out] trace.  [ThisThread::sleep_for] and raw PWM writes
      to single LED channels carry no data and are left out. *)

From Stdlib Require Import ZArith QArith Ascii String Bool Lia.
From stdpp Require Import base list strings.

Open Scope string_scope.
Open Scope list_scope.
Open Scope Z_scope.

(** ** Data model *)

(** [enum SystemState] of SecuritySystem.h. *)
Inductive SystemState := DISARMED | ARMED_HOME | ARMED_AWAY | ALARM.

#[global] Instance SystemState_eq_dec : EqDecision SystemState.
Proof. solve_decision. Defined.

(** Calls made to the collaborators, as they appear in the trace. *)
Inductive Effect :=
| PlayTone (hz ms : Z)          (* playTone(frequency, duration) *)
| ShowStatus (msg : string)     (* showStatus(msg) *)
| UpdateLED (st : SystemState)  (* updateLED(state) *)
| LogEvent (msg : string)       (* logEvent(event): one line on the SD card *)
| ClearDisplay                  (* clearDisplay() *)
| CodeProgress (n : Z)          (* the row of n '*' and 4-n '_' at (1,5) *)
| ShowInputCode (n : Z)         (* showInputCode() *)
| Countdown (remaining : Z).    (* "Time: %ds" of processEntryDelay *)

(** The fields of [class SecuritySystem] that the state machine reads or
    writes, the function-local [static] variables, and the output trace. *)
Record SecuritySystem := mkSystem {
  currentState : SystemState;
  inputCode : list ascii;          (* char inputCode[5] *)
  codeIndex : Z;                   (* int *)
  lastCommand : ascii;             (* char *)
  entryDelayActive : bool;
  entryDelayStart : Z;             (* uint32_t *)
  lastDoorState : bool;
  lastUltrasonicAlert : Z;         (* uint32_t *)
  inAlertZone : bool;              (* static, checkSensors *)
  lastMeasureTime : Z;             (* static uint32_t, measureDistance *)
  lastUpdate : Z;                  (* static uint32_t, processEntryDelay *)
  out : list Effect
}.

Definition NUL : ascii := "000"%char.

(** [const char SECURITY_CODE[] = "2580"], with its terminator. *)
Definition SECURITY_CODE : list ascii :=
  ["2"%char; "5"%char; "8"%char; "0"%char; NUL].

(** State of the object after the constructor (statics at their initial 0). *)
Definition initial : SecuritySystem :=
  {| currentState := DISARMED; inputCode := replicate 5 NUL; codeIndex := 0;
     lastCommand := NUL; entryDelayActive := false; entryDelayStart := 0;
     lastDoorState := false; lastUltrasonicAlert := 0;
     inAlertZone := false; lastMeasureTime := 0; lastUpdate := 0;
     out := [] |}.

(** Field assignments. *)
Definition set_currentState (v : SystemState) (s : SecuritySystem) :=
  mkSystem v (inputCode s) (codeIndex s) (lastCommand s)
    (entryDelayActive s) (entryDelayStart s) (lastDoorState s)
    (lastUltrasonicAlert s) (inAlertZone s) (lastMeasureTime s)
    (lastUpdate s) (out s).

Definition set_inputCode (v : list ascii) (s : SecuritySystem) :=
  mkSystem (currentState s) v (codeIndex s) (lastCommand s)
    (entryDelayActive s) (entryDelayStart s) (lastDoorState s)
    (lastUltrasonicAlert s) (inAlertZone s) (lastMeasureTime s)
    (lastUpdate s) (out s).

Definition set_codeIndex (v : Z) (s : SecuritySystem) :=
  mkSystem (currentState s) (inputCode s) v (lastCommand s)
    (entryDelayActive s) (entryDelayStart s) (lastDoorState s)
    (lastUltrasonicAlert s) (inAlertZone s) (lastMeasureTime s)
    (lastUpdate s) (out s).

Definition set_lastCommand (v : ascii) (s : SecuritySystem) :=
  mkSystem (currentState s) (inputCode s) (codeIndex s) v
    (entryDelayActive s) (entryDelayStart s) (lastDoorState s)
    (lastUltrasonicAlert s) (inAlertZone s) (lastMeasureTime s)
    (lastUpdate s) (out s).

Definition set_entryDelayActive (v : bool) (s : SecuritySystem) :=
  mkSystem (currentState s) (inputCode s) (codeIndex s) (lastCommand s)
    v (entryDelayStart s) (lastDoorState s)
    (lastUltrasonicAlert s) (inAlertZone s) (lastMeasureTime s)
    (lastUpdate s) (out s).

Definition set_entryDelayStart (v : Z) (s : SecuritySystem) :=
  mkSystem (currentState s) (inputCode s) (codeIndex s) (lastCommand s)
    (entryDelayActive s) v (lastDoorState s)
    (lastUltrasonicAlert s) (inAlertZone s) (lastMeasureTime s)
    (lastUpdate s) (out s).

Definition set_lastDoorState (v : bool) (s : SecuritySystem) :=
  mkSystem (currentState s) (inputCode s) (codeIndex s) (lastCommand s)
    (entryDelayActive s) (entryDelayStart s) v
    (lastUltrasonicAlert s) (inAlertZone s) (lastMeasureTime s)
    (lastUpdate s) (out s).

Definition set_lastUltrasonicAlert (v : Z) (s : SecuritySystem) :=
  mkSystem (currentState s) (inputCode s) (codeIndex s) (lastCommand s)
    (entryDelayActive s) (entryDelayStart s) (lastDoorState s)
    v (inAlertZone s) (lastMeasureTime s)
    (lastUpdate s) (out s).

Definition set_inAlertZone (v : bool) (s : SecuritySystem) :=
  mkSystem (currentState s) (inputCode s) (codeIndex s) (lastCommand s)
    (entryDelayActive s) (entryDelayStart s) (lastDoorState s)
    (lastUltrasonicAlert s) v (lastMeasureTime s)
    (lastUpdate s) (out s).

Definition set_lastMeasureTime (v : Z) (s : SecuritySystem) :=
  mkSystem (currentState s) (inputCode s) (codeIndex s) (lastCommand s)
    (entryDelayActive s) (entryDelayStart s) (lastDoorState s)
    (lastUltrasonicAlert s) (inAlertZone s) v
    (lastUpdate s) (out s).

Definition set_lastUpdate (v : Z) (s : SecuritySystem) :=
  mkSystem (currentState s) (inputCode s) (codeIndex s) (lastCommand s)
    (entryDelayActive s) (entryDelayStart s) (lastDoorState s)
    (lastUltrasonicAlert s) (inAlertZone s) (lastMeasureTime s)
    v (out s).

Definition emit (e : Effect) (s : SecuritySystem) :=
  mkSystem (currentState s) (inputCode s) (codeIndex s) (lastCommand s)
    (entryDelayActive s) (entryDelayStart s) (lastDoorState s)
    (lastUltrasonicAlert s) (inAlertZone s) (lastMeasureTime s)
    (lastUpdate s) (out s ++ [e]).

(** ** Machine arithmetic and C strings *)

(** Truncation to [uint32_t]. *)
Definition u32 (z : Z) : Z := z mod 2 ^ 32.

(** [key >= '0' && key <= '9']. *)
Definition isDigit (key : ascii) : bool :=
  (("0" <=? key) && (key <=? "9"))%char.

(** [strcmp] on NUL-terminated buffers: 0 when equal up to the terminator,
    otherwise the difference of the first differing bytes.  The end of a
    list is read as a terminator (the code never gets there: byte 4 of
    [inputCode] is never written after the [memset]). *)
Fixpoint strcmp (a b : list ascii) : Z :=
  match a, b with
  | x :: a', y :: b' =>
      if bool_decide (x = y)
      then (if bool_decide (x = NUL) then 0 else strcmp a' b')
      else Z.of_N (N_of_ascii x) - Z.of_N (N_of_ascii y)
  | [], y :: _ => - Z.of_N (N_of_ascii y)
  | x :: _, [] => Z.of_N (N_of_ascii x)
  | [], [] => 0
  end.

(** [a < b] on distances. *)
Definition Qltb (a b : Q) : bool := negb (Qle_bool b a).

(** ** Collaborator calls *)

Definition playTone (hz ms : Z) := emit (PlayTone hz ms).
Definition showStatus (msg : string) := emit (ShowStatus msg).
Definition updateLED (st : SystemState) := emit (UpdateLED st).
Definition logEvent (msg : string) := emit (LogEvent msg).
Definition clearDisplay := emit ClearDisplay.
Definition showInputCode (s : SecuritySystem) :=
  emit (ShowInputCode (codeIndex s)) s.
Definition showCodeProgress (s : SecuritySystem) :=
  emit (CodeProgress (codeIndex s)) s.

(** The event texts written to the log, oldest first. *)
Definition logged (s : SecuritySystem) : list string :=
  omap (fun e => match e with LogEvent m => Some m | _ => None end) (out s).

(** ** Code-entry buffer *)

(** [codeIndex = 0; memset(inputCode, 0, sizeof(inputCode));] *)
Definition clearCode (s : SecuritySystem) :=
  set_inputCode (replicate 5 NUL) (set_codeIndex 0 s).

(** [inputCode[codeIndex++] = key;]  Callers guard with [codeIndex < 4]. *)
Definition pushDigit (key : ascii) (s : SecuritySystem) :=
  set_codeIndex (codeIndex s + 1)
    (set_inputCode (<[Z.to_nat (codeIndex s) := key]> (inputCode s)) s).

(** [inputCode[--codeIndex] = 0;]  Callers guard with [codeIndex > 0]. *)
Definition popDigit (s : SecuritySystem) :=
  set_inputCode (<[Z.to_nat (codeIndex s - 1) := NUL]> (inputCode s))
    (set_codeIndex (codeIndex s - 1) s).

(** [SecuritySystem::validateCode]. *)
Definition validateCode (s : SecuritySystem) : bool :=
  bool_decide (strcmp (inputCode s) SECURITY_CODE = 0).

(** [SecuritySystem::resetEntryDelay]. *)
Definition resetEntryDelay (s : SecuritySystem) :=
  set_entryDelayStart 0 (set_entryDelayActive false s).

(** ** Inputs and control

    [scanKeypad()] is the matrix scan behind the port expander; the model
    takes the successive results of its calls as the list [keys] ([NUL] for
    "no key"), after which the keypad stays idle.  The alarm sub-loop of
    [handleAlarm] only ends on a key press, so a call that reaches it either
    returns, with the scans it has not consumed, or is left sounding the
    alarm with the keypad idle. *)

Inductive Outcome :=
| Returned (s : SecuritySystem) (keys : list ascii)
| Sounding (s : SecuritySystem).

Definition Step := SecuritySystem -> list ascii -> Outcome.

Definition andThen (a b : Step) : Step :=
  fun s keys =>
    match a s keys with
    | Returned s' keys' => b s' keys'
    | Sounding s' => Sounding s'
    end.

(** The state a call ends in, returned or not. *)
Definition final (o : Outcome) : SecuritySystem :=
  match o with Returned s _ => s | Sounding s => s end.

Notation "s |> f" := (f s) (at level 45, left associativity, only parsing).

(** What the hardware reads of one [checkSensors()] call return. *)
Record Sensors := {
  pirSensor1 : bool;        (* exterior PIR *)
  pirSensor2 : bool;        (* interior PIR *)
  doorSensor : bool;
  echo : option Q;          (* distance_cm of the echo; None on time-out *)
  t_door : Z;               (* Kernel::get_ms_count() in handleDoorOpen *)
  t_measure : Z;            (* ... in measureDistance *)
  t_alert : Z;              (* ... in handleUltrasonicAlert *)
  t_delay : Z               (* ... in processEntryDelay *)
}.

(** The [while(currentState == ALARM)] loop of [handleAlarm]; one iteration
    per keypad scan. *)
Fixpoint alarmLoop (keys : list ascii) (codeEntryMode : bool)
    (s : SecuritySystem) : Outcome :=
  if bool_decide (currentState s = ALARM) then
    let s := s |> playTone 1760 100 in
    match keys with
    | [] => Sounding s
    | key :: keys =>
        if negb codeEntryMode then
          if bool_decide (key = "C"%char) then
            alarmLoop keys true
              (s |> clearCode |> set_lastCommand "C"%char
                 |> showStatus "Enter Code:")
          else alarmLoop keys false s
        else
          if bool_decide (key <> NUL) then
            if isDigit key && (codeIndex s <? 4) then
              alarmLoop keys true
                (s |> pushDigit key |> showInputCode |> playTone 1000 50)
            else if bool_decide (key = "#"%char) && (codeIndex s =? 4) then
              if validateCode s then
                Returned
                  (s |> resetEntryDelay |> set_currentState DISARMED
                     |> logEvent "Alarm Disarmed" |> showStatus "DISARMED"
                     |> updateLED DISARMED)
                  keys
              else
                alarmLoop keys false
                  (s |> logEvent "Wrong Code Entry During Alarm"
                     |> showStatus "Wrong Code!" |> showStatus "! ALARM !"
                     |> clearCode)
            else if bool_decide (key = "*"%char) then
              if codeIndex s >? 0
              then alarmLoop keys true (s |> popDigit |> showInputCode)
              else alarmLoop keys true s
            else alarmLoop keys true s
          else alarmLoop keys true s
    end
  else Returned s keys.

(** [SecuritySystem::handleAlarm]. *)
Definition handleAlarm : Step :=
  fun s keys =>
    alarmLoop keys false
      (s |> showStatus "! ALARM !" |> updateLED ALARM
         |> logEvent "ALARM TRIGGERED").

(** [SecuritySystem::handleKeypress]. *)
Definition handleKeypress (key : ascii) : Step :=
  fun s keys =>
    let s := s |> playTone 1000 50 in
    if bool_decide (currentState s = ARMED_AWAY) && entryDelayActive s then
      (* entry delay: only digits, '#' and '*' are looked at *)
      if isDigit key && (codeIndex s <? 4) then
        Returned (s |> pushDigit key |> showCodeProgress) keys
      else if bool_decide (key = "#"%char) && (codeIndex s =? 4) then
        if validateCode s then
          Returned
            (s |> set_entryDelayActive false |> set_currentState DISARMED
               |> showStatus "DISARMED" |> updateLED DISARMED
               |> playTone 440 100)
            keys
        else
          Returned
            (s |> clearDisplay |> showStatus "Wrong Code!"
               |> playTone 220 500 |> clearCode |> clearDisplay)
            keys
      else if bool_decide (key = "*"%char) && (codeIndex s >? 0) then
        Returned (s |> popDigit |> showCodeProgress) keys
      else Returned s keys
    else if bool_decide (key = "A"%char) then
      if bool_decide (currentState s <> ALARM) then
        Returned
          (s |> showStatus "Enter Code:" |> clearCode
             |> set_lastCommand "A"%char) keys
      else Returned s keys
    else if bool_decide (key = "B"%char) then
      if bool_decide (currentState s <> ALARM) then
        Returned
          (s |> showStatus "Enter Code:" |> clearCode
             |> set_lastCommand "B"%char) keys
      else Returned s keys
    else if bool_decide (key = "C"%char) then
      if bool_decide (currentState s <> DISARMED) then
        Returned
          (s |> showStatus "Enter Code:" |> clearCode
             |> set_lastCommand "C"%char) keys
      else Returned s keys
    else if bool_decide (key = "D"%char) then
      handleAlarm
        (s |> set_currentState ALARM |> logEvent "Panic Button Pressed") keys
    else if bool_decide (key = "*"%char) then
      if codeIndex s >? 0
      then Returned (s |> popDigit |> showInputCode) keys
      else Returned s keys
    else if bool_decide (key = "#"%char) then
      if codeIndex s =? 4 then
        let s :=
          if validateCode s then
            let s :=
              if bool_decide (lastCommand s = "A"%char) then
                s |> resetEntryDelay |> set_currentState ARMED_HOME
                  |> showStatus "ARMED HOME"
                  |> logEvent "System Armed - Home Mode"
              else if bool_decide (lastCommand s = "B"%char) then
                s |> resetEntryDelay |> set_currentState ARMED_AWAY
                  |> showStatus "ARMED AWAY"
                  |> logEvent "System Armed - Away Mode"
              else if bool_decide (lastCommand s = "C"%char) then
                s |> resetEntryDelay |> set_currentState DISARMED
                  |> showStatus "DISARMED" |> logEvent "System Disarmed"
              else s in
            s |> updateLED (currentState s) |> playTone 880 100
          else
            let s := s |> showStatus "Wrong Code!" |> playTone 220 500 in
            match currentState s with
            | DISARMED => s |> showStatus "DISARMED"
            | ARMED_HOME => s |> showStatus "ARMED HOME"
            | ARMED_AWAY => s |> showStatus "ARMED AWAY"
            | ALARM => s |> showStatus "! ALARM !"
            end in
        Returned (s |> clearCode) keys
      else Returned s keys
    else
      if isDigit key && (codeIndex s <? 4)
      then Returned (s |> pushDigit key |> showInputCode) keys
      else Returned s keys.

(** [SecuritySystem::handleMotionDetected], the overload taking a message. *)
Definition handleMotionDetected (motionMsg : string) : Step :=
  fun s keys =>
    if bool_decide (currentState s <> ALARM) then
      handleAlarm
        (s |> resetEntryDelay |> set_currentState ALARM
           |> showStatus motionMsg |> logEvent motionMsg) keys
    else Returned s keys.

(** [SecuritySystem::handleDoorOpen]. *)
Definition handleDoorOpen (msg : string) (now : Z) (s : SecuritySystem) :=
  let s := s |> showStatus msg |> logEvent msg in
  match currentState s with
  | DISARMED => s |> showStatus "DISARMED"
  | ARMED_HOME =>
      s |> playTone 880 100 |> playTone 880 100 |> playTone 880 100
        |> showStatus "ARMED HOME"
  | ARMED_AWAY =>
      s |> set_entryDelayActive true |> set_entryDelayStart (u32 now)
        |> clearCode
  | ALARM => s
  end.

(** [SecuritySystem::measureDistance]: the 60 ms spacing and the range
    check; the pulse timing itself is the input [echo]. *)
Definition measureDistance (now : Z) (echo : option Q) (s : SecuritySystem)
    : Q * SecuritySystem :=
  let currentTime := u32 now in
  if u32 (currentTime - lastMeasureTime s) <? 60 then (400%Q, s)
  else
    let s := s |> set_lastMeasureTime currentTime in
    match echo with
    | None => (400%Q, s)
    | Some distance_cm =>
        if Qltb distance_cm 2 || Qltb 400 distance_cm
        then (400%Q, s) else (distance_cm, s)
    end.

(** [SecuritySystem::handleUltrasonicAlert]. *)
Definition handleUltrasonicAlert (alertMsg : string) (now : Z) : Step :=
  fun s keys =>
    let currentTime := u32 now in
    if u32 (currentTime - lastUltrasonicAlert s) <? 1000 then Returned s keys
    else
      let s := s |> set_lastUltrasonicAlert currentTime in
      match currentState s with
      | ARMED_HOME =>
          Returned
            (s |> logEvent alertMsg
               |> showStatus alertMsg |> playTone 880 50
               |> showStatus alertMsg |> playTone 880 50
               |> showStatus "ARMED HOME") keys
      | ARMED_AWAY =>
          handleAlarm
            (s |> logEvent alertMsg |> set_currentState ALARM
               |> showStatus alertMsg) keys
      | _ => Returned s keys
      end.

(** [SecuritySystem::processEntryDelay]. *)
Definition processEntryDelay (now : Z) : Step :=
  fun s keys =>
    if negb (entryDelayActive s) then Returned s keys
    else
      let currentTime := u32 now in
      let elapsed := u32 (currentTime - entryDelayStart s) / 1000 in
      let remaining := u32 (30 - elapsed) in
      if (1000 <=? u32 (currentTime - lastUpdate s)) || (lastUpdate s =? 0)
      then
        let s := s |> set_lastUpdate currentTime in
        if remaining >? 0 then
          if lastUpdate s =? currentTime then
            Returned
              (s |> clearDisplay |> emit (Countdown remaining)
                 |> showCodeProgress) keys
          else Returned s keys
        else
          handleAlarm
            (s |> set_entryDelayActive false |> set_currentState ALARM) keys
      else Returned s keys.

(** The four parts of [SecuritySystem::checkSensors], in order. *)
Definition checkMotion (sn : Sensors) : Step :=
  fun s keys =>
    if pirSensor1 sn || pirSensor2 sn then
      if bool_decide (currentState s = ARMED_AWAY) then
        handleMotionDetected "Motion Detected!" s keys
      else if bool_decide (currentState s = ARMED_HOME) && pirSensor1 sn then
        handleMotionDetected "Outside Motion!" s keys
      else Returned s keys
    else Returned s keys.

Definition checkDoor (sn : Sensors) : Step :=
  fun s keys =>
    let currentDoorState := doorSensor sn in
    let s :=
      if currentDoorState && negb (lastDoorState s) then
        match currentState s with
        | ARMED_HOME => handleDoorOpen "Door Opened" (t_door sn) s
        | ARMED_AWAY => handleDoorOpen "Entry Started" (t_door sn) s
        | _ => s
        end
      else s in
    Returned (s |> set_lastDoorState currentDoorState) keys.

Definition checkUltrasonic (sn : Sensors) : Step :=
  fun s keys =>
    if bool_decide (currentState s <> DISARMED) && negb (entryDelayActive s)
    then
      let (distance, s) := measureDistance (t_measure sn) (echo sn) s in
      if Qltb distance 10 && negb (inAlertZone s) then
        let s := s |> set_inAlertZone true in
        match currentState s with
        | ARMED_HOME =>
            handleUltrasonicAlert "Proximity Alert" (t_alert sn) s keys
        | ARMED_AWAY =>
            handleUltrasonicAlert "Window Breach!" (t_alert sn) s keys
        | _ => Returned s keys
        end
      else if Qltb 12 distance then
        Returned (s |> set_inAlertZone false) keys
      else Returned s keys
    else Returned s keys.

Definition checkEntryDelay (sn : Sensors) : Step :=
  fun s keys =>
    if bool_decide (currentState s = ARMED_AWAY) && entryDelayActive s
    then processEntryDelay (t_delay sn) s keys
    else Returned s keys.

(** [SecuritySystem::checkSensors]. *)
Definition checkSensors (sn : Sensors) : Step :=
  andThen (checkMotion sn)
    (andThen (checkDoor sn)
       (andThen (checkUltrasonic sn) (checkEntryDelay sn))).

(** [scanKeypad()] as seen from its caller: the next scan result. *)
Definition scanKeypad (keys : list ascii) : ascii * list ascii :=
  match keys with
  | [] => (NUL, [])
  | key :: keys => (key, keys)
  end.

(** One pass of the [while(1)] body of [SecuritySystem::run] (the
    once-a-second clock refresh on the display is not modelled). *)
Definition tick (sn : Sensors) : Step :=
  fun s keys =>
    let (key, keys) := scanKeypad keys in
    andThen
      (fun s keys =>
         if bool_decide (key <> NUL) then handleKeypress key s keys
         else Returned s keys)
      (fun s keys =>
         if bool_decide (currentState s <> DISARMED)
            && bool_decide (currentState s <> ALARM)
         then checkSensors sn s keys
         else Returned s keys)
      s keys.

(** [SecuritySystem::run], observed for as many passes as there are sensor
    snapshots. *)
Fixpoint run (ticks : list Sensors) : Step :=
  fun s keys =>
    match ticks with
    | [] => Returned s keys
    | sn :: ticks => andThen (tick sn) (run ticks) s keys
    end.

(** ** Observations used in the statements *)

(** The code-entry buffer length is within the four-digit bound. *)
Definition inRange (s : SecuritySystem) : Prop := 0 <= codeIndex s <= 4.

(** The states after each pass of [run], with an idle keypad once [keys]
    is used up. *)
Fixpoint runStates (ticks : list Sensors) (s : SecuritySystem)
    (keys : list ascii) : list SecuritySystem :=
  match ticks with
  | [] => []
  | sn :: ticks =>
      match tick sn s keys with
      | Returned s' keys' => s' :: runStates ticks s' keys'
      | Sounding s' => [s']
      end
  end.

(** Number of passes during which the proximity latch goes from clear to
    set, i.e. the [inAlertZone = true] branch of [checkSensors] is taken. *)
Fixpoint alertEntries (latched : bool) (l : list SecuritySystem) : nat :=
  match l with
  | [] => 0%nat
  | s :: l =>
      ((if negb latched && inAlertZone s then 1 else 0)
       + alertEntries (inAlertZone s) l)%nat
  end.

(** How many times [msg] was written to the log. *)
Definition timesLogged (msg : string) (s : SecuritySystem) : nat :=
  length (filter (fun m => m = msg) (logged s)).

(** An idle sensor bank read at clock value [t]. *)
Definition quiet (t : Z) : Sensors :=
  {| pirSensor1 := false; pirSensor2 := false; doorSensor := false;
     echo := None; t_door := t; t_measure := t; t_alert := t; t_delay := t |}.

(** The keys of a string, in order. *)
Definition typed (s : string) : list ascii := list_ascii_of_string s.

(** The sensor bank with the door open and nothing else, read at [t]. *)
Definition doorOpen (t : Z) : Sensors :=
  {| pirSensor1 := false; pirSensor2 := false; doorSensor := true;
     echo := None; t_door := t; t_measure := t; t_alert := t; t_delay := t |}.

(** The sensor bank with only a distance reading of [d] cm, read at [t]. *)
Definition reading (d : Q) (t : Z) : Sensors :=
  {| pirSensor1 := false; pirSensor2 := false; doorSensor := false;
     echo := Some d; t_door := t; t_measure := t; t_alert := t;
     t_delay := t |}.

(** [n] passes with the door open, the first at [start] ms and one every
    [period] ms after it. *)
Definition polls (start period : Z) (n : nat) : list Sensors :=
  map (fun k => doorOpen (start + period * Z.of_nat k)) (seq 0 n).

(** The measurement clock readings leave the 60 ms that [measureDistance]
    asks for between one measurement and the next, starting from [last]. *)
Fixpoint spaced (last : Z) (ts : list Z) : Prop :=
  match ts with
  | [] => True
  | t :: ts => 60 <= u32 (u32 t - last) /\ spaced (u32 t) ts
  end.

(** The assignments and calls of [handleMotionDetected] up to its call of
    [handleAlarm]. *)
Definition motionAlarm (msg : string) (s : SecuritySystem) :=
  s |> resetEntryDelay |> set_currentState ALARM
    |> showStatus msg |> logEvent msg.

(** What is left of [checkSensors] after the motion check. *)
Definition afterMotion (sn : Sensors) : Step :=
  andThen (checkDoor sn)
    (andThen (checkUltrasonic sn) (checkEntryDelay sn)).

(** A step keeps the buffer length in range, whether or not it returns. *)
Definition keepsRange (f : Step) : Prop :=
  forall s keys, inRange s -> inRange (final (f s keys)).

(** ** Further observations on the state machine *)

(** The C string held in a buffer: the bytes before the first NUL. *)
Fixpoint cstr (l : list ascii) : list ascii :=
  match l with
  | [] => []
  | c :: l => if bool_decide (c = NUL) then [] else c :: cstr l
  end.

(** A buffer of five bytes holding [idx] digits followed by NULs. *)
Definition wfBuf (buf : list ascii) (idx : Z) : Prop :=
  0 <= idx <= 4
  /\ exists ds,
       length ds = Z.to_nat idx
       /\ Forall (fun c => isDigit c = true) ds
       /\ buf = ds ++ replicate (5 - length ds) NUL.

Definition wfBuffer (s : SecuritySystem) : Prop :=
  wfBuf (inputCode s) (codeIndex s).

(** The buffer is well formed and an entry delay is only ever active in
    away mode. *)
Definition consistent (s : SecuritySystem) : Prop :=
  wfBuffer s /\ (entryDelayActive s = true -> currentState s = ARMED_AWAY).

(** How a call can end: returned outside ALARM, or sounding in ALARM, in a
    consistent state either way. *)
Definition settled (o : Outcome) : Prop :=
  match o with
  | Returned s _ => consistent s /\ currentState s <> ALARM
  | Sounding s => consistent s /\ currentState s = ALARM
  end.

(** A step that, started consistent and outside ALARM, ends settled. *)
Definition steady (f : Step) : Prop :=
  forall s keys,
    consistent s -> currentState s <> ALARM -> settled (f s keys).

(** Successive calls of [handleKeypress], one per key, with no sensor pass
    in between. *)
Fixpoint pressKeys (ks : list ascii) : Step :=
  fun s keys =>
    match ks with
    | [] => Returned s keys
    | k :: ks => andThen (handleKeypress k) (pressKeys ks) s keys
    end.

(** The keys of one disarm attempt in the alarm sub-loop. *)
Definition attempt (code : list ascii) : list ascii :=
  "C"%char :: code ++ ["#"%char].

(** Four digits that are not the access code. *)
Definition wrongCode (w : list ascii) : Prop :=
  length w = 4%nat
  /\ Forall (fun c => isDigit c = true) w
  /\ w <> typed "2580".

(** No entry delay is running under away mode, so that [handleKeypress]
    takes its normal path. *)
Definition normalPath (s : SecuritySystem) : Prop :=
  currentState s <> ARMED_AWAY \/ entryDelayActive s = false.

(** The posture a command key asks for, and the line logged when it is
    carried out. *)
Definition commandState (cmd : ascii) : SystemState :=
  if bool_decide (cmd = "A"%char) then ARMED_HOME
  else if bool_decide (cmd = "B"%char) then ARMED_AWAY
  else DISARMED.

Definition commandEvent (cmd : ascii) : string :=
  if bool_decide (cmd = "A"%char) then "System Armed - Home Mode"
  else if bool_decide (cmd = "B"%char) then "System Armed - Away Mode"
  else "System Disarmed".

(** A command key the normal path of [handleKeypress] accepts in [s]. *)
Definition accepted (cmd : ascii) (s : SecuritySystem) : Prop :=
  (cmd = "A"%char /\ currentState s <> ALARM)
  \/ (cmd = "B"%char /\ currentState s <> ALARM)
  \/ (cmd = "C"%char /\ currentState s <> DISARMED).

(** ** Real-time clock: BCD registers and time formatting *)

Module RTC.

(** Truncation to [uint8_t]. *)
Definition u8 (z : Z) : Z := z mod 256.

Definition DS3231_REG_TIME : Z := 0.

(** [SecuritySystem::bcdToDec]. *)
Definition bcdToDec (val : Z) : Z :=
  let val := u8 val in u8 (val / 16 * 10 + val mod 16).

(** [SecuritySystem::decToBcd]. *)
Definition decToBcd (val : Z) : Z :=
  let val := u8 val in u8 (val / 10 * 16 + val mod 10).

(** The seven [int]s that [setTime] takes and [getTime] hands back. *)
Record Time := mkTime {
  sec : Z; min : Z; hour : Z; day : Z; date : Z; month : Z; year : Z
}.

(** [SecuritySystem::setTime]: the eight bytes of [data], as passed to
    [i2c.write]. *)
Definition setTime (t : Time) : list Z :=
  [ DS3231_REG_TIME;
    Z.land (decToBcd (sec t)) 0x7F;
    Z.land (decToBcd (min t)) 0x7F;
    Z.land (decToBcd (hour t)) 0x3F;
    Z.land (decToBcd (day t)) 0x07;
    Z.land (decToBcd (date t)) 0x3F;
    Z.land (decToBcd (month t)) 0x1F;
    decToBcd (year t) ].

(** [SecuritySystem::getTime], from the seven bytes [i2c.read] stored in
    [data]. *)
Definition getTime (data : list Z) : Time :=
  let byte i := u8 (nth i data 0) in
  {| sec := bcdToDec (Z.land (byte 0%nat) 0x7F);
     min := bcdToDec (Z.land (byte 1%nat) 0x7F);
     hour := bcdToDec (Z.land (byte 2%nat) 0x3F);
     day := bcdToDec (Z.land (byte 3%nat) 0x07);
     date := bcdToDec (Z.land (byte 4%nat) 0x3F);
     month := bcdToDec (Z.land (byte 5%nat) 0x1F);
     year := bcdToDec (byte 6%nat) |}.

(** The decimal digits of a non-negative [int], most significant first. *)
Definition digitChar (n : Z) : ascii := ascii_of_N (Z.to_N (48 + n)).

Fixpoint digits (fuel : nat) (n : Z) : list ascii :=
  match fuel with
  | O => []
  | S fuel =>
      if n <? 10 then [digitChar n]
      else digits fuel (n / 10) ++ [digitChar (n mod 10)]
  end.

(** [printf]'s ["%0<width>d"] for a 32-bit [int]. *)
Definition fmt_0d (width : nat) (n : Z) : list ascii :=
  if n <? 0 then
    let ds := digits 10 (- n) in
    "-"%char :: replicate (width - 1 - length ds) "0"%char ++ ds
  else
    let ds := digits 10 n in
    replicate (width - length ds) "0"%char ++ ds.

(** [SecuritySystem::getTimeStr]: ["%02d:%02d:%02d"] of hour, min, sec. *)
Definition getTimeStr (data : list Z) : list ascii :=
  let t := getTime data in
  fmt_0d 2 (hour t) ++ [":"%char] ++ fmt_0d 2 (min t) ++ [":"%char]
    ++ fmt_0d 2 (sec t).

(** The line [logEvent] formats into [eventBuffer[512]] with [snprintf]
    and hands to the SD card: ["%04d-%02d-%02d %02d:%02d:%02d - %s\n"]. *)
Definition logLine (data : list Z) (event : list ascii) : list ascii :=
  let t := getTime data in
  take 511
    (fmt_0d 4 (2000 + year t) ++ ["-"%char] ++ fmt_0d 2 (month t)
       ++ ["-"%char] ++ fmt_0d 2 (date t) ++ [" "%char]
       ++ fmt_0d 2 (hour t) ++ [":"%char] ++ fmt_0d 2 (min t)
       ++ [":"%char] ++ fmt_0d 2 (sec t)
       ++ [" "; "-"; " "]%char ++ cstr event ++ ["010"%char]).

(** A calendar time as [setTime] expects it. *)
Definition calendar (t : Time) : Prop :=
  0 <= sec t <= 59 /\ 0 <= min t <= 59 /\ 0 <= hour t <= 23
  /\ 0 <= day t <= 7 /\ 0 <= date t <= 31 /\ 0 <= month t <= 12
  /\ 0 <= year t <= 99.

End RTC.

(** ** Keypad matrix scan through the port expander

    The expander is seen through its bus traffic: [reads] are the bytes it
    returns to the successive [readMCP(GPIOB)] calls, the result carries
    the [writeMCP] calls made.  A scan that is still waiting for the key
    to be released when the observed reads run out has not returned. *)

Module Keypad.

Definition GPIOB : Z := 0x13.

(** [static const char keys[4][4]]. *)
Definition keys : list (list ascii) :=
  [ ["1"; "2"; "3"; "A"];
    ["4"; "5"; "6"; "B"];
    ["7"; "8"; "9"; "C"];
    ["*"; "0"; "#"; "D"] ]%char.

Definition key_at (row col : Z) : ascii :=
  nth (Z.to_nat col) (nth (Z.to_nat row) keys []) NUL.

(** [~(1 << row) & 0x0F] stored in a [uint8_t]. *)
Definition rowPattern (row : Z) : Z :=
  RTC.u8 (Z.land (Z.lnot (Z.shiftl 1 row)) 0x0F).

(** [SecuritySystem::setKeypadRow]: the byte written to GPIOB when the
    read of GPIOB returned [g]. *)
Definition setKeypadRow (row : Z) (g : Z) : Z :=
  RTC.u8 (Z.lor (Z.land (RTC.u8 g) 0xF0) (rowPattern row)).

(** [SecuritySystem::readKeypadCols], from the byte read. *)
Definition readKeypadCols (g : Z) : Z :=
  RTC.u8 (Z.land (Z.shiftr (RTC.u8 g) 4) 0x0F).

(** [!(cols & (1 << col))]. *)
Definition columnLow (cols col : Z) : bool :=
  Z.land cols (Z.shiftl 1 col) =? 0.

(** The [for(col...)] loop: the first column that reads low. *)
Fixpoint firstLow (cols : Z) (candidates : list Z) : option Z :=
  match candidates with
  | [] => None
  | col :: candidates =>
      if columnLow cols col then Some col else firstLow cols candidates
  end.

(** The [while(!(readKeypadCols() & (1 << col)))] loop: what is left of
    the reads once the column reads high again. *)
Fixpoint waitRelease (col : Z) (reads : list Z) : option (list Z) :=
  match reads with
  | [] => None
  | g :: reads =>
      if columnLow (readKeypadCols g) col then waitRelease col reads
      else Some reads
  end.

Inductive Scan :=
| Scanned (key : ascii) (reads : list Z) (writes : list (Z * Z))
| Waiting (writes : list (Z * Z)).

(** The [for(row...)] loop of [scanKeypad]. *)
Fixpoint scanRows (rows : list Z) (reads : list Z) (writes : list (Z * Z))
    : Scan :=
  match rows with
  | [] => Scanned NUL reads writes
  | row :: rows =>
      match reads with
      | [] => Waiting writes
      | g :: reads =>
          let writes := writes ++ [(GPIOB, setKeypadRow row g)] in
          match reads with
          | [] => Waiting writes
          | g :: reads =>
              let cols := readKeypadCols g in
              if negb (cols =? 0x0F) then
                match firstLow cols [0; 1; 2; 3] with
                | Some col =>
                    match waitRelease col reads with
                    | Some reads => Scanned (key_at row col) reads writes
                    | None => Waiting writes
                    end
                | None => scanRows rows reads writes
                end
              else scanRows rows reads writes
          end
      end
  end.

(** [SecuritySystem::scanKeypad]. *)
Definition scanKeypad (reads : list Z) : Scan :=
  scanRows [0; 1; 2; 3] reads [].

(** The sixteen key characters. *)
Definition keyChars : list ascii := concat keys.

(** The reads of rows found idle: for each, the byte read by
    [setKeypadRow] and the byte read by [readKeypadCols]. *)
Definition idleReads (rows : list (Z * Z)) : list Z :=
  flat_map (fun p => [fst p; snd p]) rows.

Definition idleRow (p : Z * Z) : Prop := readKeypadCols (snd p) = 0x0F.

End Keypad.

(** ** SD card

    [SDCard.cpp].  The block device, the file system and [fopen] answer
    through [Media]; the calls made to them are recorded in order.  The
    [printf] diagnostics are left out. *)

Module SDCard.

Inductive Call :=
| BdInit | BdDeinit | FsMount | FsUnmount
| Fopen | Fwrite (length : Z) | Fflush | Fclose.

(** What the hardware answers during one call of a method. *)
Record Media := {
  init_err : Z;        (* _bd.init() *)
  mount_err : Z;       (* _fs.mount(&_bd) *)
  file_opens : bool;   (* fopen("/fs/events.txt", "a") != NULL *)
  written : Z          (* what fwrite returns *)
}.

Record Card := mkCard { mounted : bool; calls : list Call }.

(** After the constructor. *)
Definition fresh : Card := {| mounted := false; calls := [] |}.

Definition call (c : Call) (card : Card) : Card :=
  {| mounted := mounted card; calls := calls card ++ [c] |}.

Definition set_mounted (b : bool) (card : Card) : Card :=
  {| mounted := b; calls := calls card |}.

(** [SDCard::initialize]. *)
Definition initialize (m : Media) (card : Card) : bool * Card :=
  let card := card |> call BdInit in
  if negb (init_err m =? 0) then (false, card)
  else
    let card := card |> call FsMount in
    if negb (mount_err m =? 0) then (false, card |> call BdDeinit)
    else
      let card := card |> set_mounted true |> call Fopen in
      if negb (file_opens m) then
        (false, card |> call FsUnmount |> call BdDeinit |> set_mounted false)
      else (true, card |> call Fclose).

(** [SDCard::writeData]. *)
Definition writeData (m : Media) (length : Z) (card : Card) : bool * Card :=
  if negb (mounted card) then (false, card)
  else
    let card := card |> call Fopen in
    if negb (file_opens m) then (false, card)
    else
      (written m =? length,
       card |> call (Fwrite length) |> call Fflush |> call Fclose).

(** [SDCard::~SDCard]. *)
Definition destroy (card : Card) : Card :=
  if mounted card then card |> call FsUnmount |> call BdDeinit else card.

(** A sequence of [writeData] calls, each with its own answers. *)
Fixpoint writeAll (ws : list (Media * Z)) (card : Card) : list bool * Card :=
  match ws with
  | [] => ([], card)
  | (m, n) :: ws =>
      let (ok, card) := writeData m n card in
      let (oks, card) := writeAll ws card in
      (ok :: oks, card)
  end.

End SDCard.

(** * Proofs *)

(** Boolean tests of the code as propositions. *)
Ltac bools :=
  repeat match goal with
  | H : _ && _ = true |- _ => apply andb_true_iff in H; destruct H
  | H : _ || _ = false |- _ => apply orb_false_iff in H; destruct H
  | H : negb _ = true |- _ => apply negb_true_iff in H
  | H : negb _ = false |- _ => apply negb_false_iff in H
  | H : (_ <? _) = true |- _ => apply Z.ltb_lt in H
  | H : (_ <? _) = false |- _ => apply Z.ltb_ge in H
  | H : (_ <=? _) = true |- _ => apply Z.leb_le in H
  | H : (_ <=? _) = false |- _ => apply Z.leb_gt in H
  | H : (_ =? _) = true |- _ => apply Z.eqb_eq in H
  | H : (_ =? _) = false |- _ => apply Z.eqb_neq in H
  | H : (_ >? _) = true |- _ => rewrite Z.gtb_ltb in H
  | H : (_ >? _) = false |- _ => rewrite Z.gtb_ltb in H
  | H : bool_decide _ = true |- _ => apply bool_decide_eq_true in H
  | H : bool_decide _ = false |- _ => apply bool_decide_eq_false in H
  end.

(** Field-by-field reasoning: open every state record first, so that the
    assignments compute on a constructor. *)
Ltac fields :=
  unfold inRange in *;
  repeat match goal with
  | s : SecuritySystem |- _ =>
      destruct s as
        [?st ?buf ?idx ?cmd ?act ?start ?door ?ualert ?zone ?meas ?upd ?o]
  end;
  cbn in *; bools.

(** Rewrites [logged] of a state built by assignments and collaborator
    calls down to [logged] of the state it started from. *)
Ltac logs :=
  unfold logged; fields; rewrite ?omap_app; cbn;
  rewrite ?app_nil_r, <- ?app_assoc; cbn; try reflexivity.

(** Counts the occurrences of a given text in the log of such a state. *)
Ltac counts :=
  unfold timesLogged, logged; fields;
  rewrite ?omap_app, ?filter_app, ?length_app; cbn;
  repeat (case_decide; try congruence); cbn; try lia.

(** Evaluates the comparisons of concrete distances in the hypotheses. *)
Ltac qcmp :=
  repeat match goal with
  | H : context [Qltb ?a ?b] |- _ =>
      let v := eval vm_compute in (Qltb a b) in
      change (Qltb a b) with v in H
  end.

(** Closes the goals left by a case analysis of a step whose branches
    either end in a call covered by [lem] or return an updated state. *)
Ltac range_cases lem :=
  repeat case_match; try (apply lem); fields; try lia.

(** Finishes a case of [wfBuf_cases]. *)
Ltac wf_fin := repeat split; first [assumption | reflexivity | lia].

(** Opens the state records under [consistent] without unfolding the
    buffer predicate. *)
Ltac open_consistent :=
  unfold settled, consistent, wfBuffer in *;
  repeat match goal with
  | s : SecuritySystem |- _ =>
      destruct s as
        [?st ?buf ?idx ?cmd ?act ?start ?door ?ualert ?zone ?meas ?upd ?o]
  end;
  cbn [currentState inputCode codeIndex lastCommand entryDelayActive
       entryDelayStart lastDoorState lastUltrasonicAlert inAlertZone
       lastMeasureTime lastUpdate out final
       playTone showStatus updateLED logEvent clearDisplay showInputCode
       showCodeProgress clearCode pushDigit popDigit resetEntryDelay emit
       set_currentState set_inputCode set_codeIndex set_lastCommand
       set_entryDelayActive set_entryDelayStart set_lastDoorState
       set_lastUltrasonicAlert set_inAlertZone set_lastMeasureTime
       set_lastUpdate andb negb] in *;
  bools.

(** Refutes a goal whose premise would put an active entry delay outside
    away mode. *)
Ltac delay_contra :=
  intros; subst;
  repeat match goal with
  | H : ?a = true -> _, H' : ?a = true |- _ => specialize (H H')
  | H : true = true -> _ |- _ => specialize (H eq_refl)
  end;
  subst; cbn in *; first [congruence | discriminate].

Create HintDb wf.

#[export] Hint Extern 2 (_ < _) => lia : wf.

(** Closes the goals left by a case analysis of a step started in a
    consistent state: branches that end in a call covered by [lem], and
    branches that return a state built by assignments. *)
Ltac consistent_cases lem :=
  repeat case_match; try (apply lem); open_consistent;
  repeat match goal with
  | H : _ /\ _ |- _ => destruct H
  | |- _ /\ _ => split
  end;
  try first
    [ assumption
    | solve [auto with wf]
    | congruence
    | intros; congruence
    | intuition congruence
    | delay_contra ].

(** Evaluates [commandState] and [commandEvent] of a given key. *)
Ltac eval_command :=
  repeat match goal with
  | |- context [commandState ?k] =>
      let v := eval vm_compute in (commandState k) in
      change (commandState k) with v
  | |- context [commandEvent ?k] =>
      let v := eval vm_compute in (commandEvent k) in
      change (commandEvent k) with v
  end.

Create HintDb sys.

Section Invariant.

Lemma keepsRange_andThen (f g : Step) :
  keepsRange f -> keepsRange g -> keepsRange (andThen f g).
Proof.
  intros Hf Hg s keys Hs. unfold andThen.
  specialize (Hf s keys Hs). destruct (f s keys); cbn in *; auto.
Qed.

Lemma alarmLoop_inRange (keys : list ascii) :
  forall codeEntryMode s,
    inRange s -> inRange (final (alarmLoop keys codeEntryMode s)).
Proof.
  induction keys as [|key keys IH]; intros mode s Hs; cbn [alarmLoop].
  - case_match; fields; lia.
  - repeat case_match; try apply IH; clear IH; fields; lia.
Qed.

Lemma handleAlarm_inRange : keepsRange handleAlarm.
Proof.
  intros s keys Hs. apply alarmLoop_inRange. fields; lia.
Qed.


Lemma handleKeypress_inRange (key : ascii) : keepsRange (handleKeypress key).
Proof.
  intros s keys Hs. unfold handleKeypress.
  range_cases handleAlarm_inRange.
Qed.

Lemma handleMotionDetected_inRange (msg : string) :
  keepsRange (handleMotionDetected msg).
Proof.
  intros s keys Hs. unfold handleMotionDetected.
  range_cases handleAlarm_inRange.
Qed.

Lemma handleUltrasonicAlert_inRange (msg : string) (now : Z) :
  keepsRange (handleUltrasonicAlert msg now).
Proof.
  intros s keys Hs. unfold handleUltrasonicAlert.
  range_cases handleAlarm_inRange.
Qed.

Lemma processEntryDelay_inRange (now : Z) :
  keepsRange (processEntryDelay now).
Proof.
  intros s keys Hs. unfold processEntryDelay.
  range_cases handleAlarm_inRange.
Qed.

Lemma checkMotion_inRange (sn : Sensors) : keepsRange (checkMotion sn).
Proof.
  intros s keys Hs. unfold checkMotion.
  repeat case_match; try (apply handleMotionDetected_inRange); easy.
Qed.

Lemma checkDoor_inRange (sn : Sensors) : keepsRange (checkDoor sn).
Proof.
  intros s keys Hs. unfold checkDoor, handleDoorOpen.
  range_cases handleAlarm_inRange.
Qed.

Lemma measureDistance_codeIndex (now : Z) (e : option Q) s :
  codeIndex (snd (measureDistance now e s)) = codeIndex s.
Proof. unfold measureDistance. repeat case_match; fields; reflexivity. Qed.

Lemma checkUltrasonic_inRange (sn : Sensors) : keepsRange (checkUltrasonic sn).
Proof.
  intros s keys Hs. unfold checkUltrasonic.
  pose proof (measureDistance_codeIndex (t_measure sn) (echo sn) s) as Hm.
  destruct (measureDistance (t_measure sn) (echo sn) s) as [d s1].
  cbn [snd] in Hm.
  assert (Hs1 : inRange s1) by (unfold inRange in *; lia).
  clear Hm.
  repeat case_match;
    try (apply handleUltrasonicAlert_inRange); fields; try lia.
Qed.

Lemma checkEntryDelay_inRange (sn : Sensors) : keepsRange (checkEntryDelay sn).
Proof.
  intros s keys Hs. unfold checkEntryDelay.
  case_match; [apply processEntryDelay_inRange|]; easy.
Qed.

#[local] Hint Resolve keepsRange_andThen checkMotion_inRange
  checkDoor_inRange checkUltrasonic_inRange checkEntryDelay_inRange : sys.

Lemma checkSensors_inRange (sn : Sensors) : keepsRange (checkSensors sn).
Proof. unfold checkSensors. auto 6 with sys. Qed.

Lemma tick_inRange (sn : Sensors) : keepsRange (tick sn).
Proof.
  intros s keys Hs. unfold tick.
  destruct (scanKeypad keys) as [key keys'].
  apply keepsRange_andThen; [| |exact Hs]; intros s1 keys1 Hs1.
  - case_match; [apply handleKeypress_inRange|]; easy.
  - case_match; [apply checkSensors_inRange|]; easy.
Qed.

Lemma run_inRange (ticks : list Sensors) : keepsRange (run ticks).
Proof.
  induction ticks as [|sn ticks IH]; intros s keys Hs; cbn [run].
  - exact Hs.
  - apply keepsRange_andThen; auto using tick_inRange.
Qed.

End Invariant.

(** ** The alarm sub-loop *)

Section AlarmLoop.

(** The loop cannot be left while the state is ALARM except through the
    accepted-code branch, and that branch returns with the four digits
    still in the buffer. *)
Lemma alarmLoop_exit (keys : list ascii) :
  forall codeEntryMode s s' rest,
    currentState s = ALARM ->
    alarmLoop keys codeEntryMode s = Returned s' rest ->
    currentState s' = DISARMED /\ codeIndex s' = 4 /\ validateCode s' = true.
Proof.
  induction keys as [|key keys IH]; intros mode s s' rest Hs H;
    cbn [alarmLoop] in H; rewrite bool_decide_eq_true_2 in H by exact Hs.
  - discriminate.
  - repeat case_match;
      try (eapply IH; [|exact H]; clear IH H; fields; assumption);
      clear IH.
    injection H as <- <-. fields. auto.
Qed.

Lemma handleAlarm_exit s keys s' rest :
  currentState s = ALARM ->
  handleAlarm s keys = Returned s' rest ->
  currentState s' = DISARMED /\ codeIndex s' = 4 /\ validateCode s' = true.
Proof.
  intros Hs H. unfold handleAlarm in H.
  eapply alarmLoop_exit; [|exact H]. fields. assumption.
Qed.

(** With the keypad idle the alarm keeps sounding, and nothing but the
    alarm tone is added to the state it was entered with. *)
Lemma handleAlarm_idle s :
  currentState s = ALARM ->
  handleAlarm s [] =
    Sounding (s |> showStatus "! ALARM !" |> updateLED ALARM
                |> logEvent "ALARM TRIGGERED" |> playTone 1760 100).
Proof.
  intros Hs. unfold handleAlarm. cbn [alarmLoop].
  rewrite bool_decide_eq_true_2; [reflexivity|]. fields. assumption.
Qed.

End AlarmLoop.

(** C1 (the code departs from the claim).  The accepted-code exit of the
    alarm sub-loop does not clear the code-entry buffer.  Whenever
    [handleAlarm], entered in ALARM, returns, it returns in DISARMED with
    [codeIndex = 4] and a buffer that still validates.  On the keys
    C 2 5 8 0 # the digits "2580" are still in [inputCode], and a bare '#'
    pressed next in the main handler is accepted on those stale digits and
    logs a disarm. *)
Theorem C1_alarm_exit_keeps_digits :
  (forall s keys s' rest,
      currentState s = ALARM ->
      handleAlarm s keys = Returned s' rest ->
      currentState s' = DISARMED /\ codeIndex s' = 4
      /\ validateCode s' = true)
  /\ exists s' s'',
       handleAlarm (set_currentState ALARM initial) (typed "C2580#")
         = Returned s' []
       /\ currentState s' = DISARMED
       /\ codeIndex s' = 4
       /\ inputCode s' = SECURITY_CODE
       /\ handleKeypress "#" s' [] = Returned s'' []
       /\ logged s'' = logged s' ++ ["System Disarmed"].
Proof.
  split; [exact handleAlarm_exit|].
  eexists. eexists.
  split; [vm_compute; reflexivity|].
  repeat split; vm_compute; reflexivity.
Qed.

(** C1 witness: the alarm raised from power-up and disarmed with
    C 2 5 8 0 #. *)
Lemma C1_alarm_exit_keeps_digits_witness :
  codeIndex
    (final (handleAlarm (set_currentState ALARM initial) (typed "C2580#")))
  = 4.
Proof.
  assert (E : handleAlarm (set_currentState ALARM initial) (typed "C2580#")
              = Returned
                  (final (handleAlarm (set_currentState ALARM initial)
                            (typed "C2580#"))) [])
    by (vm_compute; reflexivity).
  exact (proj1 (proj2
           (proj1 C1_alarm_exit_keeps_digits
              (set_currentState ALARM initial) _ _ _ eq_refl E))).
Defined.

(** ** The pending command *)

(** C2, as claimed, fails: after A 2 5 8 0 # the stored command is still
    'A', and typing 2 5 8 0 # again, with no command key, arms the system
    a second time. *)
Lemma C2_pending_command_survives :
  exists s0 s1 s2,
    run (replicate 5 (quiet 0)) initial (typed "A2580") = Returned s0 []
    /\ handleKeypress "#" s0 [] = Returned s1 []
    /\ lastCommand s1 = "A"%char
    /\ run (replicate 5 (quiet 0)) s1 (typed "2580#") = Returned s2 []
    /\ logged s2 = ["System Armed - Home Mode"; "System Armed - Home Mode"].
Proof.
  do 3 eexists.
  split; [vm_compute; reflexivity|].
  split; [vm_compute; reflexivity|].
  split; [vm_compute; reflexivity|].
  split; vm_compute; reflexivity.
Qed.

(** C2 (amended).  [lastCommand] is not cleared when a code-entry episode
    ends: every key other than 'A', 'B', 'C' and 'D' -- in particular '#'
    submitting a code, valid or not -- returns with [lastCommand] as it
    was; and outside an entry delay a '#' on a valid four-digit buffer
    executes whatever command is stored. *)
Theorem C2_pending_command_persists :
  (forall (key : ascii) s keys,
      key <> "A"%char -> key <> "B"%char ->
      key <> "C"%char -> key <> "D"%char ->
      exists s', handleKeypress key s keys = Returned s' keys
                 /\ lastCommand s' = lastCommand s)
  /\ (forall s keys,
        (currentState s <> ARMED_AWAY \/ entryDelayActive s = false) ->
        codeIndex s = 4 -> validateCode s = true ->
        exists s', handleKeypress "#" s keys = Returned s' keys
          /\ (lastCommand s = "A"%char -> currentState s' = ARMED_HOME)
          /\ (lastCommand s = "B"%char -> currentState s' = ARMED_AWAY)
          /\ (lastCommand s = "C"%char -> currentState s' = DISARMED)).
Proof.
  split.
  - intros key s keys HA HB HC HD. unfold handleKeypress.
    repeat case_match; bools; try contradiction;
      (eexists; split; [reflexivity|]); fields; reflexivity.
  - intros s keys Hd Hi Hv. unfold handleKeypress.
    assert (Hgate : bool_decide (currentState (playTone 1000 50 s) = ARMED_AWAY)
                    && entryDelayActive (playTone 1000 50 s) = false).
    { destruct Hd as [Hd|Hd]; fields.
      - rewrite bool_decide_eq_false_2 by assumption. reflexivity.
      - subst. apply andb_false_r. }
    rewrite Hgate.
    assert (Hi' : (codeIndex (playTone 1000 50 s) =? 4) = true)
      by (fields; subst; reflexivity).
    assert (Hv' : validateCode (playTone 1000 50 s) = true)
      by (fields; assumption).
    repeat (rewrite bool_decide_eq_false_2 by discriminate).
    rewrite bool_decide_eq_true_2 by reflexivity.
    rewrite Hi', Hv'.
    eexists; split; [reflexivity|].
    repeat split; intros Hc; repeat case_match; bools; fields;
      congruence.
Qed.

(** C2 witness: the '#' of an accepted "2580" with 'A' stored keeps the
    'A' and arms the system. *)
Lemma C2_pending_command_persists_witness :
  let s0 := final (run (replicate 5 (quiet 0)) initial (typed "A2580")) in
  (exists s', handleKeypress "#" s0 [] = Returned s' []
              /\ lastCommand s' = "A"%char)
  /\ (exists s', handleKeypress "#" s0 [] = Returned s' []
                 /\ currentState s' = ARMED_HOME).
Proof.
  intros s0. split.
  - destruct (proj1 C2_pending_command_persists "#"%char s0 [])
      as [s' [H1 H2]]; try discriminate.
    exists s'. split; [exact H1|]. rewrite H2. vm_compute. reflexivity.
  - destruct (proj2 C2_pending_command_persists s0 [])
      as (s' & H1 & HA & _).
    + right. vm_compute. reflexivity.
    + vm_compute. reflexivity.
    + vm_compute. reflexivity.
    + exists s'. split; [exact H1|]. apply HA. vm_compute. reflexivity.
Defined.



(** ** The entry-delay countdown *)

Section EntryDelay.

(** One second or more past the thirty, the unsigned [30 - elapsed] wraps
    to a large positive number and the countdown goes on. *)
Lemma processEntryDelay_overdue (now : Z) s keys :
  entryDelayActive s = true ->
  31000 <= u32 (u32 now - entryDelayStart s) ->
  exists s', processEntryDelay now s keys = Returned s' keys
    /\ currentState s' = currentState s
    /\ entryDelayActive s' = true
    /\ logged s' = logged s.
Proof.
  intros Ha Hlate. unfold processEntryDelay. rewrite Ha. cbn [negb].
  set (elapsed := u32 (u32 now - entryDelayStart s) / 1000).
  assert (He : 31 <= elapsed < 2 ^ 32).
  { subst elapsed. unfold u32 in *.
    pose proof (Z.mod_pos_bound (now mod 2 ^ 32 - entryDelayStart s)
                  (2 ^ 32) eq_refl) as Hb.
    split.
    - apply Z.div_le_lower_bound; lia.
    - apply Z.div_lt_upper_bound; lia. }
  assert (Hr : (u32 (30 - elapsed) >? 0) = true).
  { unfold u32. rewrite Z.gtb_ltb. apply Z.ltb_lt.
    replace (30 - elapsed) with ((2 ^ 32 + 30 - elapsed) + (-1) * 2 ^ 32)
      by lia.
    rewrite Z.mod_add by lia. rewrite Z.mod_small by lia. lia. }
  case_match.
  - cbn [lastUpdate set_lastUpdate]. rewrite Hr, Z.eqb_refl.
    eexists; split; [reflexivity|]. clear Hr He Hlate. subst elapsed.
    repeat split; try (fields; assumption). logs.
  - eexists; split; [reflexivity|]. auto.
Qed.

(** Within the thirty-first second, and when the once-a-second display
    gate is open, the alarm is raised. *)
Lemma processEntryDelay_expiry (now : Z) s keys :
  entryDelayActive s = true ->
  30000 <= u32 (u32 now - entryDelayStart s) < 31000 ->
  1000 <= u32 (u32 now - lastUpdate s) \/ lastUpdate s = 0 ->
  processEntryDelay now s keys =
    handleAlarm (s |> set_lastUpdate (u32 now)
                   |> set_entryDelayActive false
                   |> set_currentState ALARM) keys.
Proof.
  intros Ha He Hg. unfold processEntryDelay. rewrite Ha. cbn [negb].
  assert (Hgate : (1000 <=? u32 (u32 now - lastUpdate s))
                  || (lastUpdate s =? 0) = true).
  { apply orb_true_iff.
    destruct Hg; [left; apply Z.leb_le|right; apply Z.eqb_eq]; assumption. }
  rewrite Hgate.
  replace (u32 (u32 now - entryDelayStart s) / 1000) with 30.
  - reflexivity.
  - apply Z.div_unique with (u32 (u32 now - entryDelayStart s) - 30000);
      lia.
Qed.

End EntryDelay.

(** C3 (the code departs from the claim).  Armed away with B 2 5 8 0 #,
    the door opens at t = 5000 ms and [checkSensors] runs every 1034 ms for
    a minute with no key pressed.  The passes fall at 29.986 s and 31.020 s
    after the door opened, none in the thirty-first second, so the unsigned
    [30 - elapsed] is never 0: the system is still ARMED_AWAY with the
    entry delay active after 61 s, and no alarm was logged. *)
Theorem C3_expiry_missed_after_thirty_seconds :
  exists armed s',
    run (replicate 6 (quiet 0)) initial (typed "B2580#") = Returned armed []
    /\ currentState armed = ARMED_AWAY
    /\ run (polls 5000 1034 60) armed [] = Returned s' []
    /\ currentState s' = ARMED_AWAY
    /\ entryDelayActive s' = true
    /\ entryDelayStart s' = 5000
    /\ logged s' = ["System Armed - Away Mode"; "Entry Started"].
Proof.
  do 2 eexists.
  split; [vm_compute; reflexivity|].
  split; [reflexivity|].
  split; [vm_compute; reflexivity|].
  repeat split.
Qed.

(** ** The panic key *)

(** C4, as claimed, fails twice.  Armed away, with the door open and the
    entry delay running, 'D' after a first digit is dropped: the state is
    still ARMED_AWAY, the digit is still in the buffer and nothing about a
    panic is logged.  And from DISARMED, 'D' after a first digit raises the
    alarm but leaves that digit in the buffer. *)
Lemma C4_panic_dropped_in_entry_delay_and_buffer_kept :
  exists armed s1 s2,
    run (replicate 6 (quiet 0)) initial (typed "B2580#") = Returned armed []
    /\ run (polls 5000 50 3) armed [NUL; "1"%char; "D"%char] = Returned s1 []
    /\ currentState s1 = ARMED_AWAY
    /\ entryDelayActive s1 = true
    /\ codeIndex s1 = 1
    /\ logged s1 = ["System Armed - Away Mode"; "Entry Started"]
    /\ run (replicate 2 (quiet 0)) initial (typed "1D") = Sounding s2
    /\ currentState s2 = ALARM
    /\ codeIndex s2 = 1
    /\ inputCode s2 = ["1"%char; NUL; NUL; NUL; NUL].
Proof.
  do 3 eexists.
  split; [vm_compute; reflexivity|].
  split; [vm_compute; reflexivity|].
  do 4 (split; [reflexivity|]).
  split; [vm_compute; reflexivity|].
  repeat split.
Qed.

(** C4 (amended).  From every state other than ALARM in which no entry
    delay is running under ARMED_AWAY, 'D' sets the state to ALARM, logs
    the panic and enters the alarm sub-loop; the panic itself leaves the
    code-entry buffer as it was.  While an entry delay is running under
    ARMED_AWAY, 'D' is ignored. *)
Theorem C4_panic_key :
  (forall s keys,
      currentState s <> ALARM ->
      (currentState s <> ARMED_AWAY \/ entryDelayActive s = false) ->
      handleKeypress "D" s keys
        = handleAlarm (s |> playTone 1000 50 |> set_currentState ALARM
                         |> logEvent "Panic Button Pressed") keys
      /\ exists s',
           handleKeypress "D" s [] = Sounding s'
           /\ currentState s' = ALARM
           /\ logged s'
              = logged s ++ ["Panic Button Pressed"; "ALARM TRIGGERED"]
           /\ codeIndex s' = codeIndex s
           /\ inputCode s' = inputCode s)
  /\ (forall s keys,
        currentState s = ARMED_AWAY -> entryDelayActive s = true ->
        exists s',
          handleKeypress "D" s keys = Returned s' keys
          /\ currentState s' = ARMED_AWAY
          /\ entryDelayActive s' = true
          /\ codeIndex s' = codeIndex s
          /\ inputCode s' = inputCode s
          /\ logged s' = logged s).
Proof.
  split.
  - intros s keys _ Hd.
    assert (Heq : forall keys, handleKeypress "D" s keys
        = handleAlarm (s |> playTone 1000 50 |> set_currentState ALARM
                         |> logEvent "Panic Button Pressed") keys).
    { intros keys'. unfold handleKeypress.
      assert (Hgate :
                bool_decide (currentState (playTone 1000 50 s) = ARMED_AWAY)
                && entryDelayActive (playTone 1000 50 s) = false).
      { destruct Hd as [Hd|Hd]; fields.
        - rewrite bool_decide_eq_false_2 by assumption. reflexivity.
        - subst. apply andb_false_r. }
      rewrite Hgate. reflexivity. }
    split; [apply Heq|].
    rewrite Heq, handleAlarm_idle by reflexivity.
    eexists; split; [reflexivity|].
    repeat split; try (fields; reflexivity). logs.
  - intros s keys Hs Ha. unfold handleKeypress.
    assert (Hgate : bool_decide (currentState (playTone 1000 50 s) = ARMED_AWAY)
                    && entryDelayActive (playTone 1000 50 s) = true).
    { fields. subst. reflexivity. }
    rewrite Hgate. cbn.
    eexists; split; [reflexivity|].
    repeat split; try (fields; assumption || reflexivity). logs.
Qed.

(** C4 witness: 'D' from the power-up state, and 'D' while the entry delay
    runs. *)
Lemma C4_panic_key_witness :
  (exists s', handleKeypress "D" initial [] = Sounding s'
              /\ currentState s' = ALARM)
  /\ (exists s',
        handleKeypress "D"
          (initial |> set_currentState ARMED_AWAY |> set_entryDelayActive true)
          [] = Returned s' []
        /\ currentState s' = ARMED_AWAY).
Proof.
  split.
  - destruct (proj1 C4_panic_key initial []) as [_ [s' [H1 [H2 _]]]].
    + discriminate.
    + right. reflexivity.
    + exists s'. split; assumption.
  - destruct (proj2 C4_panic_key
                (initial |> set_currentState ARMED_AWAY
                         |> set_entryDelayActive true) [])
      as [s' [H1 [H2 _]]]; try reflexivity.
    exists s'. split; assumption.
Defined.

(** ** Disarming *)

(** C5, as claimed, fails: from the power-up state 'C' opens no episode
    (no pending command is stored), and after C 2 5 8 0 # the state is
    DISARMED but nothing was logged. *)
Lemma C5_disarm_when_disarmed_not_logged :
  exists s1 s2,
    handleKeypress "C" initial [] = Returned s1 []
    /\ lastCommand s1 = NUL
    /\ run (replicate 6 (quiet 0)) initial (typed "C2580#") = Returned s2 []
    /\ currentState s2 = DISARMED
    /\ logged s2 = [].
Proof.
  do 2 eexists.
  split; [vm_compute; reflexivity|].
  split; [reflexivity|].
  split; [vm_compute; reflexivity|].
  split; reflexivity.
Qed.

(** C5 (amended).  'C' pressed while DISARMED is ignored: only the key
    tone sounds, no episode is opened and the stored command and buffer
    are unchanged.  A valid four-digit code plus '#' then acts on the
    command already stored: if that is 'C' the state stays DISARMED and
    "System Disarmed" is logged; if no command is stored the state stays
    DISARMED and nothing is logged. *)
Theorem C5_disarm_key_ignored_when_disarmed :
  (forall s keys,
      currentState s = DISARMED ->
      handleKeypress "C" s keys = Returned (playTone 1000 50 s) keys)
  /\ (forall s keys,
        currentState s = DISARMED -> codeIndex s = 4 ->
        validateCode s = true ->
        exists s',
          handleKeypress "#" s keys = Returned s' keys
          /\ (lastCommand s = "C"%char ->
              currentState s' = DISARMED
              /\ logged s' = logged s ++ ["System Disarmed"])
          /\ (lastCommand s <> "A"%char -> lastCommand s <> "B"%char ->
              lastCommand s <> "C"%char ->
              currentState s' = DISARMED /\ logged s' = logged s)).
Proof.
  split.
  - intros s keys Hs. unfold handleKeypress.
    assert (Hst : currentState (playTone 1000 50 s) = DISARMED)
      by (fields; assumption).
    rewrite Hst. cbn. reflexivity.
  - intros s keys Hs Hi Hv. unfold handleKeypress.
    assert (Hst : currentState (playTone 1000 50 s) = DISARMED)
      by (fields; assumption).
    assert (Hi' : (codeIndex (playTone 1000 50 s) =? 4) = true)
      by (fields; subst; reflexivity).
    assert (Hv' : validateCode (playTone 1000 50 s) = true)
      by (fields; assumption).
    rewrite Hst.
    rewrite (bool_decide_eq_false_2 (DISARMED = ARMED_AWAY)) by discriminate.
    cbn [andb].
    repeat (rewrite bool_decide_eq_false_2 by discriminate).
    rewrite bool_decide_eq_true_2 by reflexivity.
    rewrite Hi', Hv'.
    eexists; split; [reflexivity|].
    split.
    + intros Hc.
      assert (Hc' : lastCommand (playTone 1000 50 s) = "C"%char)
        by (fields; assumption).
      rewrite Hc'.
      repeat (rewrite bool_decide_eq_false_2 by discriminate).
      rewrite bool_decide_eq_true_2 by reflexivity.
      split; [fields; reflexivity|logs].
    + intros HA HB HC.
      repeat (rewrite bool_decide_eq_false_2 by (fields; assumption)).
      split; [fields; assumption|logs].
Qed.

(** C5 witness: 'C' at power-up, then a '#' on the typed code. *)
Lemma C5_disarm_key_ignored_when_disarmed_witness :
  handleKeypress "C" initial [] = Returned (playTone 1000 50 initial) []
  /\ exists s',
       handleKeypress "#"
         (final (run (replicate 5 (quiet 0)) initial (typed "C2580"))) []
       = Returned s' []
       /\ currentState s' = DISARMED.
Proof.
  split.
  - apply (proj1 C5_disarm_key_ignored_when_disarmed initial []). reflexivity.
  - destruct (proj2 C5_disarm_key_ignored_when_disarmed
                (final (run (replicate 5 (quiet 0)) initial (typed "C2580")))
                [])
      as [s' [H1 [_ H2]]]; try (vm_compute; reflexivity).
    exists s'. split; [exact H1|].
    apply H2; vm_compute; discriminate.
Defined.

(** ** Code entry during the entry delay *)

Section Disarmed.

(** While DISARMED, a key other than 'D' and '#' changes neither the
    state nor the log. *)
Lemma handleKeypress_disarmed (key : ascii) s keys :
  currentState s = DISARMED ->
  key <> "D"%char -> key <> "#"%char ->
  exists s', handleKeypress key s keys = Returned s' keys
    /\ currentState s' = DISARMED /\ logged s' = logged s.
Proof.
  intros Hs HD Hh. unfold handleKeypress.
  assert (Hst : currentState (playTone 1000 50 s) = DISARMED)
    by (fields; assumption).
  rewrite Hst.
  rewrite (bool_decide_eq_false_2 (DISARMED = ARMED_AWAY)) by discriminate.
  cbn [andb].
  repeat case_match; bools; try contradiction;
    (eexists; split; [reflexivity|]);
    (split; [fields; assumption|logs]).
Qed.

(** The polling loop started DISARMED stays DISARMED, and logs nothing,
    for as long as neither 'D' nor '#' is pressed; the sensors are not
    even read. *)
Lemma run_disarmed (ticks : list Sensors) :
  forall s keys,
    currentState s = DISARMED ->
    Forall (fun k => k <> "D"%char /\ k <> "#"%char) keys ->
    exists s', run ticks s keys = Returned s' (drop (length ticks) keys)
      /\ currentState s' = DISARMED /\ logged s' = logged s.
Proof.
  induction ticks as [|sn ticks IH]; intros s keys Hs Hk; cbn [run].
  - exists s. rewrite drop_0. auto.
  - unfold andThen at 1. unfold tick.
    destruct keys as [|key keys]; cbn [scanKeypad].
    + unfold andThen.
      rewrite bool_decide_eq_false_2 by (intros H; apply H; reflexivity).
      rewrite Hs. cbn.
      destruct (IH s [] Hs Hk) as [s' [H1 H2]].
      rewrite drop_nil in H1. exists s'. auto.
    + apply Forall_cons in Hk as [[HD Hh] Hk]. unfold andThen.
      assert (Hkey : exists s1,
                 (if bool_decide (key <> NUL)
                  then handleKeypress key s keys else Returned s keys)
                 = Returned s1 keys
                 /\ currentState s1 = DISARMED /\ logged s1 = logged s).
      { case_match.
        - apply handleKeypress_disarmed; assumption.
        - exists s. auto. }
      destruct Hkey as [s1 [-> [Hs1 Hl1]]].
      rewrite Hs1. cbn.
      destruct (IH s1 keys Hs1 Hk) as [s' [H1 [H2 H3]]].
      exists s'. rewrite <- Hl1. auto.
Qed.

End Disarmed.

(** C6.  During an entry delay under ARMED_AWAY, '#' on a valid four-digit
    buffer -- at any time, the handler does not look at the clock --
    returns with the state DISARMED and the entry delay no longer active,
    and logs nothing.  From then on the countdown is a no-op whatever the
    clock reads, and the polling loop stays DISARMED with no alarm logged,
    whatever the sensors read, until 'D' or '#' is pressed. *)
Theorem C6_valid_code_cancels_entry_delay s keys :
  currentState s = ARMED_AWAY ->
  entryDelayActive s = true ->
  codeIndex s = 4 ->
  validateCode s = true ->
  exists s',
    handleKeypress "#" s keys = Returned s' keys
    /\ currentState s' = DISARMED
    /\ entryDelayActive s' = false
    /\ logged s' = logged s
    /\ (forall now keys', processEntryDelay now s' keys' = Returned s' keys')
    /\ (forall ticks keys',
          Forall (fun k => k <> "D"%char /\ k <> "#"%char) keys' ->
          exists s'',
            run ticks s' keys' = Returned s'' (drop (length ticks) keys')
            /\ currentState s'' = DISARMED
            /\ logged s'' = logged s').
Proof.
  intros Hs Ha Hi Hv. unfold handleKeypress.
  assert (Hgate : bool_decide (currentState (playTone 1000 50 s) = ARMED_AWAY)
                  && entryDelayActive (playTone 1000 50 s) = true)
    by (fields; subst; reflexivity).
  assert (Hi' : (codeIndex (playTone 1000 50 s) <? 4) = false)
    by (fields; subst; reflexivity).
  assert (Hi'' : (codeIndex (playTone 1000 50 s) =? 4) = true)
    by (fields; subst; reflexivity).
  assert (Hv' : validateCode (playTone 1000 50 s) = true)
    by (fields; assumption).
  rewrite Hgate, Hi', Hi'', Hv', andb_false_r.
  rewrite bool_decide_eq_true_2 by reflexivity. cbn [andb].
  eexists; split; [reflexivity|].
  split; [fields; reflexivity|].
  split; [fields; reflexivity|].
  split; [logs|].
  split.
  - intros now keys'. unfold processEntryDelay.
    destruct s; reflexivity.
  - intros ticks keys' Hk. apply run_disarmed; [|exact Hk].
    destruct s; reflexivity.
Qed.

(** C6 witness: armed away, door opened, then 2 5 8 0 typed; the '#' that
    follows disarms. *)
Lemma C6_valid_code_cancels_entry_delay_witness :
  exists s',
    handleKeypress "#"
      (final (run (polls 5000 50 5)
                (final (run (replicate 6 (quiet 0)) initial (typed "B2580#")))
                (NUL :: typed "2580"))) []
    = Returned s' []
    /\ currentState s' = DISARMED
    /\ entryDelayActive s' = false.
Proof.
  destruct (C6_valid_code_cancels_entry_delay
              (final (run (polls 5000 50 5)
                        (final (run (replicate 6 (quiet 0)) initial
                                  (typed "B2580#")))
                        (NUL :: typed "2580"))) [])
    as [s' [H1 [H2 [H3 _]]]]; try (vm_compute; reflexivity).
  exists s'. auto.
Defined.

(** C10.  During an entry delay under ARMED_AWAY, '#' on a four-digit
    buffer that does not match the code returns with the state still
    ARMED_AWAY, the entry delay still active and its start time untouched;
    the buffer is emptied and every other field, and the log, is as it
    was. *)
Theorem C10_wrong_code_keeps_deadline s keys :
  currentState s = ARMED_AWAY ->
  entryDelayActive s = true ->
  codeIndex s = 4 ->
  validateCode s = false ->
  exists s',
    handleKeypress "#" s keys = Returned s' keys
    /\ currentState s' = ARMED_AWAY
    /\ entryDelayActive s' = true
    /\ entryDelayStart s' = entryDelayStart s
    /\ codeIndex s' = 0
    /\ inputCode s' = replicate 5 NUL
    /\ lastCommand s' = lastCommand s
    /\ lastDoorState s' = lastDoorState s
    /\ lastUltrasonicAlert s' = lastUltrasonicAlert s
    /\ inAlertZone s' = inAlertZone s
    /\ lastMeasureTime s' = lastMeasureTime s
    /\ lastUpdate s' = lastUpdate s
    /\ logged s' = logged s.
Proof.
  intros Hs Ha Hi Hv. unfold handleKeypress.
  assert (Hgate : bool_decide (currentState (playTone 1000 50 s) = ARMED_AWAY)
                  && entryDelayActive (playTone 1000 50 s) = true)
    by (fields; subst; reflexivity).
  assert (Hi' : (codeIndex (playTone 1000 50 s) <? 4) = false)
    by (fields; subst; reflexivity).
  assert (Hi'' : (codeIndex (playTone 1000 50 s) =? 4) = true)
    by (fields; subst; reflexivity).
  assert (Hv' : validateCode (playTone 1000 50 s) = false)
    by (fields; assumption).
  rewrite Hgate, Hi', Hi'', Hv', andb_false_r.
  rewrite bool_decide_eq_true_2 by reflexivity. cbn [andb].
  eexists; split; [reflexivity|].
  repeat split; try (fields; assumption || reflexivity). logs.
Qed.

(** C10 witness: armed away, door opened, then 1 2 3 4 typed; the '#'
    that follows is refused and the deadline stays at 5000 ms. *)
Lemma C10_wrong_code_keeps_deadline_witness :
  exists s',
    handleKeypress "#"
      (final (run (polls 5000 50 5)
                (final (run (replicate 6 (quiet 0)) initial (typed "B2580#")))
                (NUL :: typed "1234"))) []
    = Returned s' []
    /\ currentState s' = ARMED_AWAY
    /\ entryDelayActive s' = true
    /\ entryDelayStart s' = 5000.
Proof.
  destruct (C10_wrong_code_keeps_deadline
              (final (run (polls 5000 50 5)
                        (final (run (replicate 6 (quiet 0)) initial
                                  (typed "B2580#")))
                        (NUL :: typed "1234"))) [])
    as [s' [H1 [H2 [H3 [H4 _]]]]]; try (vm_compute; reflexivity).
  exists s'. rewrite H4. auto.
Defined.

(** ** Sensor monitoring in home mode *)

Section HomeMode.

Lemma checkMotion_home_quiet sn s keys :
  currentState s = ARMED_HOME -> pirSensor1 sn = false ->
  checkMotion sn s keys = Returned s keys.
Proof.
  intros Hs Hp. unfold checkMotion. rewrite Hs, Hp. cbn.
  destruct (pirSensor2 sn); reflexivity.
Qed.

(** A door edge in home mode is announced and logged, nothing more. *)
Lemma checkDoor_home sn s keys :
  currentState s = ARMED_HOME ->
  exists s', checkDoor sn s keys = Returned s' keys
    /\ currentState s' = ARMED_HOME
    /\ entryDelayActive s' = entryDelayActive s
    /\ inAlertZone s' = inAlertZone s
    /\ lastMeasureTime s' = lastMeasureTime s
    /\ lastUltrasonicAlert s' = lastUltrasonicAlert s
    /\ timesLogged "ALARM TRIGGERED" s' = timesLogged "ALARM TRIGGERED" s
    /\ timesLogged "Proximity Alert" s' = timesLogged "Proximity Alert" s.
Proof.
  intros Hs. unfold checkDoor, handleDoorOpen.
  eexists; split; [reflexivity|].
  case_match.
  - assert (H1 : currentState
                   (logEvent "Door Opened" (showStatus "Door Opened" s))
                 = ARMED_HOME) by (fields; assumption).
    rewrite Hs, H1.
    repeat split; try (fields; assumption || reflexivity); counts.
  - repeat split; try (fields; assumption || reflexivity).
Qed.

(** A proximity breach in home mode only warns. *)
Lemma checkUltrasonic_home sn s keys :
  currentState s = ARMED_HOME ->
  exists s', checkUltrasonic sn s keys = Returned s' keys
    /\ currentState s' = ARMED_HOME
    /\ entryDelayActive s' = entryDelayActive s
    /\ timesLogged "ALARM TRIGGERED" s' = timesLogged "ALARM TRIGGERED" s.
Proof.
  intros Hs. unfold checkUltrasonic, measureDistance, handleUltrasonicAlert.
  destruct s as [st buf idx cmd act start door ualert zone meas upd o].
  cbn in Hs. subst st. cbn.
  repeat case_match; simplify_eq;
    (eexists; split; [reflexivity|]); cbn; repeat split; counts.
Qed.

(** The latch and the warning for one accepted distance reading [d]. *)
Lemma checkUltrasonic_home_reading sn s keys (d : Q) :
  currentState s = ARMED_HOME ->
  entryDelayActive s = false ->
  echo sn = Some d ->
  Qltb d 2 || Qltb 400 d = false ->
  60 <= u32 (u32 (t_measure sn) - lastMeasureTime s) ->
  exists s', checkUltrasonic sn s keys = Returned s' keys
    /\ currentState s' = ARMED_HOME
    /\ entryDelayActive s' = false
    /\ lastMeasureTime s' = u32 (t_measure sn)
    /\ inAlertZone s' =
         (if Qltb d 10 && negb (inAlertZone s) then true
          else if Qltb 12 d then false else inAlertZone s)
    /\ (if Qltb d 10 && negb (inAlertZone s)
           && (1000 <=? u32 (u32 (t_alert sn) - lastUltrasonicAlert s))
        then timesLogged "Proximity Alert" s'
             = S (timesLogged "Proximity Alert" s)
             /\ lastUltrasonicAlert s' = u32 (t_alert sn)
        else timesLogged "Proximity Alert" s'
             = timesLogged "Proximity Alert" s
             /\ lastUltrasonicAlert s' = lastUltrasonicAlert s).
Proof.
  intros Hs Ha He Hr Hm.
  unfold checkUltrasonic, measureDistance, handleUltrasonicAlert.
  destruct s as [st buf idx cmd act start door ualert zone meas upd o].
  cbn in Hs, Ha, Hm. subst st act. cbn. rewrite He.
  destruct (Z.ltb_spec (u32 (u32 (t_measure sn) - meas)) 60) as [Hlt|_];
    [lia|].
  rewrite Hr. cbn.
  destruct (Qltb d 10), zone; cbn.
  all: repeat case_match; simplify_eq; bools;
    (eexists; split; [reflexivity|]); cbn; repeat split; try counts.
Qed.

Lemma checkEntryDelay_home sn s keys :
  currentState s = ARMED_HOME ->
  checkEntryDelay sn s keys = Returned s keys.
Proof. intros Hs. unfold checkEntryDelay. rewrite Hs. reflexivity. Qed.

(** In home mode with the exterior sensor quiet, a pass over the sensors
    returns in home mode and raises no alarm. *)
Lemma checkSensors_home_quiet sn s keys :
  currentState s = ARMED_HOME -> pirSensor1 sn = false ->
  exists s', checkSensors sn s keys = Returned s' keys
    /\ currentState s' = ARMED_HOME
    /\ entryDelayActive s' = entryDelayActive s
    /\ timesLogged "ALARM TRIGGERED" s' = timesLogged "ALARM TRIGGERED" s.
Proof.
  intros Hs Hp. unfold checkSensors, andThen.
  rewrite checkMotion_home_quiet by assumption.
  destruct (checkDoor_home sn s keys Hs)
    as (s1 & -> & Hs1 & Ha1 & _ & _ & _ & Hl1 & _).
  destruct (checkUltrasonic_home sn s1 keys Hs1)
    as (s2 & -> & Hs2 & Ha2 & Hl2).
  rewrite checkEntryDelay_home by assumption.
  exists s2. repeat split; congruence.
Qed.

(** Once motion counts, the alarm is raised before anything else is
    looked at. *)
Lemma checkSensors_motion sn s (msg : string) :
  (forall keys, checkMotion sn s keys = handleMotionDetected msg s keys) ->
  currentState s <> ALARM ->
  (forall keys,
      checkSensors sn s keys
      = andThen handleAlarm (afterMotion sn) (motionAlarm msg s) keys)
  /\ exists s',
       checkSensors sn s [] = Sounding s'
       /\ currentState s' = ALARM
       /\ logged s' = logged s ++ [msg; "ALARM TRIGGERED"].
Proof.
  intros Hm Hs.
  assert (Heq : forall keys, checkSensors sn s keys
            = andThen handleAlarm (afterMotion sn) (motionAlarm msg s) keys).
  { intros keys. unfold checkSensors, afterMotion. unfold andThen at 1 3.
    rewrite Hm. unfold handleMotionDetected.
    rewrite bool_decide_eq_true_2 by assumption. reflexivity. }
  split; [exact Heq|].
  rewrite Heq. unfold andThen.
  rewrite handleAlarm_idle by (destruct s; reflexivity).
  eexists; split; [reflexivity|].
  split; [destruct s; reflexivity|]. unfold motionAlarm. logs.
Qed.

End HomeMode.

(** C7.  In home mode a pass over the sensors with the exterior motion
    sensor quiet -- whatever the interior one, the door and the distance
    read -- returns in home mode with no alarm raised; with the exterior
    sensor reading true the state is set to ALARM and the alarm sub-loop
    entered before any other sensor is looked at.  In away mode either
    motion sensor reading true does the same. *)
Theorem C7_motion_asymmetry (sn : Sensors) s :
  (currentState s = ARMED_HOME -> pirSensor1 sn = false ->
   forall keys,
   exists s',
     checkSensors sn s keys = Returned s' keys
     /\ currentState s' = ARMED_HOME
     /\ timesLogged "ALARM TRIGGERED" s' = timesLogged "ALARM TRIGGERED" s)
  /\ (currentState s = ARMED_HOME -> pirSensor1 sn = true ->
      currentState (motionAlarm "Outside Motion!" s) = ALARM
      /\ (forall keys,
             checkSensors sn s keys
             = andThen handleAlarm (afterMotion sn)
                 (motionAlarm "Outside Motion!" s) keys)
      /\ exists s',
           checkSensors sn s [] = Sounding s'
           /\ currentState s' = ALARM
           /\ logged s' = logged s ++ ["Outside Motion!"; "ALARM TRIGGERED"])
  /\ (currentState s = ARMED_AWAY ->
      pirSensor1 sn || pirSensor2 sn = true ->
      currentState (motionAlarm "Motion Detected!" s) = ALARM
      /\ (forall keys,
             checkSensors sn s keys
             = andThen handleAlarm (afterMotion sn)
                 (motionAlarm "Motion Detected!" s) keys)
      /\ exists s',
           checkSensors sn s [] = Sounding s'
           /\ currentState s' = ALARM
           /\ logged s' = logged s ++ ["Motion Detected!"; "ALARM TRIGGERED"]).
Proof.
  split; [|split].
  - intros Hs Hp keys.
    destruct (checkSensors_home_quiet sn s keys Hs Hp)
      as (s' & H1 & H2 & _ & H3).
    exists s'. auto.
  - intros Hs Hp. split; [destruct s; reflexivity|].
    apply checkSensors_motion.
    + intros keys. unfold checkMotion. rewrite Hs, Hp. reflexivity.
    + rewrite Hs. discriminate.
  - intros Hs Hp. split; [destruct s; reflexivity|].
    apply checkSensors_motion.
    + intros keys. unfold checkMotion. rewrite Hs, Hp. reflexivity.
    + rewrite Hs. discriminate.
Qed.

(** C7 witness: armed home with A 2 5 8 0 #, then interior motion only,
    exterior motion; armed away with B 2 5 8 0 #, then interior motion. *)
Lemma C7_motion_asymmetry_witness :
  let home := final (run (replicate 6 (quiet 0)) initial (typed "A2580#")) in
  let away := final (run (replicate 6 (quiet 0)) initial (typed "B2580#")) in
  let interior :=
    {| pirSensor1 := false; pirSensor2 := true; doorSensor := false;
       echo := None; t_door := 0; t_measure := 0; t_alert := 0;
       t_delay := 0 |} in
  let exterior :=
    {| pirSensor1 := true; pirSensor2 := false; doorSensor := false;
       echo := None; t_door := 0; t_measure := 0; t_alert := 0;
       t_delay := 0 |} in
  (exists s', checkSensors interior home [] = Returned s' []
              /\ currentState s' = ARMED_HOME)
  /\ (exists s', checkSensors exterior home [] = Sounding s'
                 /\ currentState s' = ALARM)
  /\ (exists s', checkSensors interior away [] = Sounding s'
                 /\ currentState s' = ALARM).
Proof.
  intros home away interior exterior. split; [|split].
  - destruct (proj1 (C7_motion_asymmetry interior home)
                eq_refl eq_refl []) as (s' & H1 & H2 & _).
    exists s'. auto.
  - destruct (proj1 (proj2 (C7_motion_asymmetry exterior home))
                eq_refl eq_refl) as (_ & _ & s' & H1 & H2 & _).
    exists s'. auto.
  - destruct (proj2 (proj2 (C7_motion_asymmetry interior away))
                eq_refl eq_refl) as (_ & _ & s' & H1 & H2 & _).
    exists s'. auto.
Defined.

(** ** Proximity hysteresis *)


(** One pass of the polling loop in home mode, keypad idle, exterior
    sensor quiet, with an accepted distance reading [d]. *)
Lemma tick_home_reading sn s (d : Q) :
  currentState s = ARMED_HOME ->
  entryDelayActive s = false ->
  pirSensor1 sn = false ->
  echo sn = Some d ->
  Qltb d 2 || Qltb 400 d = false ->
  60 <= u32 (u32 (t_measure sn) - lastMeasureTime s) ->
  exists s', tick sn s [] = Returned s' []
    /\ currentState s' = ARMED_HOME
    /\ entryDelayActive s' = false
    /\ lastMeasureTime s' = u32 (t_measure sn)
    /\ inAlertZone s' =
         (if Qltb d 10 && negb (inAlertZone s) then true
          else if Qltb 12 d then false else inAlertZone s)
    /\ (if Qltb d 10 && negb (inAlertZone s)
           && (1000 <=? u32 (u32 (t_alert sn) - lastUltrasonicAlert s))
        then timesLogged "Proximity Alert" s'
             = S (timesLogged "Proximity Alert" s)
             /\ lastUltrasonicAlert s' = u32 (t_alert sn)
        else timesLogged "Proximity Alert" s'
             = timesLogged "Proximity Alert" s
             /\ lastUltrasonicAlert s' = lastUltrasonicAlert s).
Proof.
  intros Hs Ha Hp He Hr Hm. unfold tick. cbn [scanKeypad]. unfold andThen.
  rewrite bool_decide_eq_false_2 by (intros Hn; apply Hn; reflexivity).
  rewrite Hs.
  rewrite !bool_decide_eq_true_2 by discriminate. cbn [andb].
  unfold checkSensors, andThen.
  rewrite checkMotion_home_quiet by assumption.
  destruct (checkDoor_home sn s [] Hs)
    as (s1 & -> & Hs1 & Ha1 & Hz1 & Hm1 & Hu1 & _ & Hl1).
  rewrite <- Hz1, <- Hu1, <- Hl1.
  rewrite Ha in Ha1. rewrite <- Hm1 in Hm.
  destruct (checkUltrasonic_home_reading sn s1 [] d Hs1 Ha1 He Hr Hm)
    as (s2 & -> & H).
  rewrite checkEntryDelay_home by apply H.
  exists s2. split; [reflexivity|exact H].
Qed.

(** C8.  Home mode, no entry delay, exterior sensor quiet, keypad idle:
    for the distance readings 15, 9, 11, 13, 8 cm on five successive
    passes, each taken at least 60 ms after the one before, the five
    passes all end in home mode, the proximity latch reads clear, set,
    set, clear, set after them, and so the alert zone is entered on
    exactly two passes (the readings 9 and 8).  Each entry writes one
    "Proximity Alert" to the log unless it comes within 1000 ms of the
    last alert: at most two lines are written, and exactly two when
    neither entry is throttled. *)
Theorem C8_proximity_hysteresis (ticks : list Sensors) s :
  currentState s = ARMED_HOME ->
  entryDelayActive s = false ->
  map echo ticks = [Some 15%Q; Some 9%Q; Some 11%Q; Some 13%Q; Some 8%Q] ->
  Forall (fun sn => pirSensor1 sn = false) ticks ->
  spaced (lastMeasureTime s) (map t_measure ticks) ->
  exists s1 s2 s3 s4 s5,
    runStates ticks s [] = [s1; s2; s3; s4; s5]
    /\ map currentState [s1; s2; s3; s4; s5] = replicate 5 ARMED_HOME
    /\ map inAlertZone [s1; s2; s3; s4; s5] = [false; true; true; false; true]
    /\ alertEntries (inAlertZone s) (runStates ticks s []) = 2%nat
    /\ (timesLogged "Proximity Alert" s
        <= timesLogged "Proximity Alert" s5
        <= timesLogged "Proximity Alert" s + 2)%nat
    /\ (forall sn2 sn5,
           ticks !! 1%nat = Some sn2 -> ticks !! 4%nat = Some sn5 ->
           1000 <= u32 (u32 (t_alert sn2) - lastUltrasonicAlert s) ->
           1000 <= u32 (u32 (t_alert sn5) - u32 (t_alert sn2)) ->
           timesLogged "Proximity Alert" s5
           = (timesLogged "Proximity Alert" s + 2)%nat).
Proof.
  intros Hs Ha Hecho Hpir Hsp.
  destruct ticks as [|sn1 [|sn2 [|sn3 [|sn4 [|sn5 [|? ?]]]]]];
    try discriminate.
  cbn in Hecho. injection Hecho as E1 E2 E3 E4 E5.
  repeat (apply Forall_cons in Hpir as [? Hpir]).
  cbn in Hsp. destruct Hsp as (M1 & M2 & M3 & M4 & M5 & _).
  destruct (tick_home_reading sn1 s 15) as (s1 & T1 & S1 & A1 & L1 & Z1 & W1);
    try assumption; try reflexivity.
  rewrite <- L1 in M2.
  destruct (tick_home_reading sn2 s1 9) as (s2 & T2 & S2 & A2 & L2 & Z2 & W2);
    try assumption; try reflexivity.
  rewrite <- L2 in M3.
  destruct (tick_home_reading sn3 s2 11) as (s3 & T3 & S3 & A3 & L3 & Z3 & W3);
    try assumption; try reflexivity.
  rewrite <- L3 in M4.
  destruct (tick_home_reading sn4 s3 13) as (s4 & T4 & S4 & A4 & L4 & Z4 & W4);
    try assumption; try reflexivity.
  rewrite <- L4 in M5.
  destruct (tick_home_reading sn5 s4 8) as (s5 & T5 & S5 & A5 & L5 & Z5 & W5);
    try assumption; try reflexivity.
  qcmp. cbn [andb negb] in *.
  rewrite Z1 in Z2, W2. cbn [andb negb] in Z2, W2.
  rewrite Z2 in Z3.
  rewrite Z4 in Z5, W5. cbn [andb negb] in Z5, W5.
  destruct W1 as [W1 U1], W3 as [W3 U3], W4 as [W4 U4].
  rewrite U1 in W2. rewrite U4, U3 in W5.
  exists s1, s2, s3, s4, s5.
  cbn [runStates]. rewrite T1, T2, T3, T4, T5.
  split; [reflexivity|].
  split; [cbn; congruence|].
  split; [cbn; congruence|].
  split; [cbn [alertEntries]; rewrite Z1, Z2, Z3, Z4, Z5;
          destruct (inAlertZone s); reflexivity|].
  split.
  - do 2 case_match; destruct W2, W5; lia.
  - intros ? ? [= <-] [= <-] R2 R5.
    apply Z.leb_le in R2. rewrite R2 in W2. destruct W2 as [W2 U2].
    rewrite U2 in W5.
    apply Z.leb_le in R5. rewrite R5 in W5. destruct W5 as [W5 _].
    lia.
Qed.

(** C8 witness: armed home with A 2 5 8 0 #, then the five readings taken
    1100 ms apart. *)
Lemma C8_proximity_hysteresis_witness :
  let home := final (run (replicate 6 (quiet 0)) initial (typed "A2580#")) in
  let ticks :=
    [reading 15 10000; reading 9 11100; reading 11 12200;
     reading 13 13300; reading 8 14400] in
  alertEntries (inAlertZone home) (runStates ticks home []) = 2%nat
  /\ timesLogged "Proximity Alert" (final (run ticks home [])) = 2%nat.
Proof.
  intros home ticks.
  destruct (C8_proximity_hysteresis ticks home)
    as (s1 & s2 & s3 & s4 & s5 & H1 & _ & _ & H2 & _ & H3).
  - reflexivity.
  - reflexivity.
  - reflexivity.
  - repeat constructor.
  - vm_compute. repeat split; discriminate.
  - split; [exact H2|]. vm_compute. reflexivity.
Defined.

(** ** The code-entry buffer *)

Section Buffer.

Lemma runStates_inRange (ticks : list Sensors) :
  forall s keys, inRange s -> Forall inRange (runStates ticks s keys).
Proof.
  induction ticks as [|sn ticks IH]; intros s keys Hs; cbn [runStates].
  - constructor.
  - pose proof (tick_inRange sn s keys Hs) as Ht.
    destruct (tick sn s keys) as [s' keys'|s']; cbn [final] in Ht.
    + constructor; [exact Ht|apply IH; exact Ht].
    + constructor; [exact Ht|constructor].
Qed.

(** A digit is none of the command keys. *)
Lemma isDigit_not_command (key : ascii) :
  isDigit key = true ->
  key <> "A"%char /\ key <> "B"%char /\ key <> "C"%char
  /\ key <> "D"%char /\ key <> "*"%char /\ key <> "#"%char
  /\ key <> NUL.
Proof.
  intros Hd. repeat split; intros ->; vm_compute in Hd; discriminate.
Qed.

Lemma handleKeypress_star_empty s keys :
  codeIndex s = 0 ->
  exists s', handleKeypress "*" s keys = Returned s' keys
    /\ codeIndex s' = 0 /\ inputCode s' = inputCode s.
Proof.
  intros Hi. unfold handleKeypress.
  assert (Hi' : codeIndex (playTone 1000 50 s) = 0) by (fields; assumption).
  rewrite Hi'. cbn.
  case_match; (eexists; split; [reflexivity|]); fields; auto.
Qed.

Lemma handleKeypress_digit_full (key : ascii) s keys :
  isDigit key = true -> codeIndex s = 4 ->
  exists s', handleKeypress key s keys = Returned s' keys
    /\ codeIndex s' = 4 /\ inputCode s' = inputCode s.
Proof.
  intros Hd Hi. unfold handleKeypress.
  destruct (isDigit_not_command key Hd) as (HA & HB & HC & HD & Hs & Hh & _).
  assert (Hi' : codeIndex (playTone 1000 50 s) = 4) by (fields; assumption).
  rewrite Hi', Hd.
  rewrite !(bool_decide_eq_false_2 (key = _)) by assumption.
  cbn.
  case_match; (eexists; split; [reflexivity|]); fields; auto.
Qed.

Lemma alarmLoop_star_empty s keys (codeEntryMode : bool) :
  currentState s = ALARM -> codeIndex s = 0 ->
  exists s',
    alarmLoop ("*"%char :: keys) codeEntryMode s
    = alarmLoop keys codeEntryMode s'
    /\ codeIndex s' = 0 /\ inputCode s' = inputCode s.
Proof.
  intros Hs Hi. exists (playTone 1760 100 s).
  split; [|fields; auto].
  cbn [alarmLoop]. rewrite bool_decide_eq_true_2 by assumption.
  assert (Hi' : codeIndex (playTone 1760 100 s) = 0) by (fields; assumption).
  rewrite Hi'. destruct codeEntryMode; reflexivity.
Qed.

Lemma alarmLoop_digit_full (key : ascii) s keys (codeEntryMode : bool) :
  isDigit key = true -> currentState s = ALARM -> codeIndex s = 4 ->
  exists s',
    alarmLoop (key :: keys) codeEntryMode s
    = alarmLoop keys codeEntryMode s'
    /\ codeIndex s' = 4 /\ inputCode s' = inputCode s.
Proof.
  intros Hd Hs Hi. exists (playTone 1760 100 s).
  split; [|fields; auto].
  destruct (isDigit_not_command key Hd) as (_ & _ & HC & _ & Hst & Hh & Hn).
  cbn [alarmLoop]. rewrite bool_decide_eq_true_2 by assumption.
  assert (Hi' : codeIndex (playTone 1760 100 s) = 4) by (fields; assumption).
  rewrite Hi', Hd.
  rewrite !(bool_decide_eq_false_2 (key = _)) by assumption.
  rewrite (bool_decide_eq_true_2 (key <> NUL)) by assumption.
  destruct codeEntryMode; reflexivity.
Qed.

End Buffer.

(** C9.  Started with [codeIndex] in [0,4], the polling loop keeps it
    there after every pass, for every sequence of sensor readings and key
    scans and whether or not it ends up sounding the alarm; so do
    [handleKeypress] (both its entry-delay path and its normal path) and
    the alarm sub-loop on their own.  A '*' on an empty buffer leaves the
    buffer as it is, and so does a digit on a full one, in the key handler
    and in the alarm sub-loop alike. *)
Theorem C9_code_buffer_bounded :
  (forall ticks s keys,
      inRange s ->
      inRange (final (run ticks s keys))
      /\ Forall inRange (runStates ticks s keys))
  /\ (forall key s keys,
        inRange s -> inRange (final (handleKeypress key s keys)))
  /\ (forall s keys, inRange s -> inRange (final (handleAlarm s keys)))
  /\ (forall s keys,
        codeIndex s = 0 ->
        exists s', handleKeypress "*" s keys = Returned s' keys
          /\ codeIndex s' = 0 /\ inputCode s' = inputCode s)
  /\ (forall s keys codeEntryMode,
        currentState s = ALARM -> codeIndex s = 0 ->
        exists s',
          alarmLoop ("*"%char :: keys) codeEntryMode s
          = alarmLoop keys codeEntryMode s'
          /\ codeIndex s' = 0 /\ inputCode s' = inputCode s)
  /\ (forall key s keys,
        isDigit key = true -> codeIndex s = 4 ->
        exists s', handleKeypress key s keys = Returned s' keys
          /\ codeIndex s' = 4 /\ inputCode s' = inputCode s)
  /\ (forall key s keys codeEntryMode,
        isDigit key = true -> currentState s = ALARM -> codeIndex s = 4 ->
        exists s',
          alarmLoop (key :: keys) codeEntryMode s
          = alarmLoop keys codeEntryMode s'
          /\ codeIndex s' = 4 /\ inputCode s' = inputCode s).
Proof.
  split; [|split; [|split; [|split; [|split; [|split]]]]].
  - intros ticks s keys Hs.
    split; [apply run_inRange|apply runStates_inRange]; exact Hs.
  - intros key. apply handleKeypress_inRange.
  - apply handleAlarm_inRange.
  - apply handleKeypress_star_empty.
  - intros s keys mode. apply alarmLoop_star_empty.
  - apply handleKeypress_digit_full.
  - intros key s keys mode. apply alarmLoop_digit_full.
Qed.

(** C9 witness: from power-up, a run with more digits than fit and a '*';
    a '*' on the empty buffer and a fifth digit on the full one in the key
    handler; the same two keys in the alarm sub-loop. *)
Lemma C9_code_buffer_bounded_witness :
  let full := final (run (replicate 5 (quiet 0)) initial (typed "A1234")) in
  inRange (final (run (replicate 9 (quiet 0)) initial (typed "A1234567*")))
  /\ inRange (final (handleKeypress "7" full []))
  /\ inRange (final (handleAlarm (set_currentState ALARM initial)
                       (typed "C123456*")))
  /\ (exists s', handleKeypress "*" initial [] = Returned s' []
                 /\ codeIndex s' = 0)
  /\ (exists s',
        alarmLoop ["*"%char] true (set_currentState ALARM initial)
        = alarmLoop [] true s'
        /\ codeIndex s' = 0)
  /\ (exists s', handleKeypress "5" full [] = Returned s' []
                 /\ codeIndex s' = 4)
  /\ (exists s',
        alarmLoop ["5"%char] true (set_currentState ALARM full)
        = alarmLoop [] true s'
        /\ codeIndex s' = 4).
Proof.
  intros full.
  destruct C9_code_buffer_bounded
    as (Hrun & Hkey & Halarm & Hstar & Hstar' & Hfull & Hfull').
  assert (Hinit : inRange initial) by (vm_compute; split; discriminate).
  assert (Hf : inRange full) by (vm_compute; split; discriminate).
  repeat split.
  - apply Hrun. exact Hinit.
  - apply Hrun. exact Hinit.
  - apply Hkey. exact Hf.
  - apply Hkey. exact Hf.
  - apply Halarm. exact Hinit.
  - apply Halarm. exact Hinit.
  - destruct (Hstar initial []) as (s' & H1 & H2 & _); [reflexivity|].
    exists s'. auto.
  - destruct (Hstar' (set_currentState ALARM initial) [] true)
      as (s' & H1 & H2 & _); [reflexivity|reflexivity|].
    exists s'. auto.
  - destruct (Hfull "5"%char full [])
      as (s' & H1 & H2 & _); [reflexivity|reflexivity|].
    exists s'. auto.
  - destruct (Hfull' "5"%char (set_currentState ALARM full) [] true)
      as (s' & H1 & H2 & _); [reflexivity|reflexivity|reflexivity|].
    exists s'. auto.
Defined.

(** * Further properties of the code *)

(** ** Well-formed buffers *)

Section WellFormed.

Lemma wfBuf_clear : wfBuf (replicate 5 NUL) 0.
Proof.
  split; [lia|]. exists []. repeat split. constructor.
Qed.

(** The shape of a well-formed buffer, case by case on its length. *)
Lemma wfBuf_cases (buf : list ascii) (idx : Z) :
  wfBuf buf idx ->
  (idx = 0 /\ buf = [NUL; NUL; NUL; NUL; NUL])
  \/ (exists a, idx = 1 /\ isDigit a = true /\ buf = [a; NUL; NUL; NUL; NUL])
  \/ (exists a b, idx = 2 /\ isDigit a = true /\ isDigit b = true
                  /\ buf = [a; b; NUL; NUL; NUL])
  \/ (exists a b c, idx = 3 /\ isDigit a = true /\ isDigit b = true
                    /\ isDigit c = true /\ buf = [a; b; c; NUL; NUL])
  \/ (exists a b c d, idx = 4 /\ isDigit a = true /\ isDigit b = true
                      /\ isDigit c = true /\ isDigit d = true
                      /\ buf = [a; b; c; d; NUL]).
Proof.
  intros [Hr (ds & Hl & Hd & ->)].
  assert (Hn : (length ds <= 4)%nat) by lia.
  assert (Hi : idx = Z.of_nat (length ds)) by lia.
  destruct ds as [|a [|b [|c [|d [|e ds]]]]]; cbn in Hn, Hi; try lia;
    repeat match goal with
    | H : Forall _ (_ :: _) |- _ => apply Forall_cons in H as [? H]
    end.
  - left. wf_fin.
  - right; left. exists a. wf_fin.
  - do 2 right; left. exists a, b. wf_fin.
  - do 3 right; left. exists a, b, c. wf_fin.
  - do 4 right. exists a, b, c, d. wf_fin.
Qed.

Lemma wfBuf_push (buf : list ascii) (idx : Z) (key : ascii) :
  wfBuf buf idx -> idx < 4 -> isDigit key = true ->
  wfBuf (<[Z.to_nat idx := key]> buf) (idx + 1).
Proof.
  intros H Hlt Hk.
  destruct (wfBuf_cases _ _ H)
    as [(-> & ->)|[(a & -> & ? & ->)|[(a & b & -> & ? & ? & ->)
       |[(a & b & c & -> & ? & ? & ? & ->)|(a & b & c & d & -> & _)]]]];
    try lia; (split; [lia|]).
  - exists [key]. repeat split. repeat constructor; assumption.
  - exists [a; key]. repeat split. repeat constructor; assumption.
  - exists [a; b; key]. repeat split. repeat constructor; assumption.
  - exists [a; b; c; key]. repeat split. repeat constructor; assumption.
Qed.

Lemma wfBuf_pop (buf : list ascii) (idx : Z) :
  wfBuf buf idx -> 0 < idx ->
  wfBuf (<[Z.to_nat (idx - 1) := NUL]> buf) (idx - 1).
Proof.
  intros H Hlt.
  destruct (wfBuf_cases _ _ H)
    as [(-> & ->)|[(a & -> & ? & ->)|[(a & b & -> & ? & ? & ->)
       |[(a & b & c & -> & ? & ? & ? & ->)
        |(a & b & c & d & -> & ? & ? & ? & ? & ->)]]]];
    try lia; (split; [lia|]).
  - exists []. repeat split. constructor.
  - exists [a]. repeat split. repeat constructor; assumption.
  - exists [a; b]. repeat split. repeat constructor; assumption.
  - exists [a; b; c]. repeat split. repeat constructor; assumption.
Qed.

End WellFormed.

(** ** Consistency of the reachable states *)

Section Consistency.

#[local] Hint Resolve wfBuf_clear wfBuf_push wfBuf_pop : wf.

Lemma steady_andThen (f g : Step) :
  steady f -> steady g -> steady (andThen f g).
Proof.
  intros Hf Hg s keys Hs Hn. unfold andThen.
  specialize (Hf s keys Hs Hn).
  destruct (f s keys) as [s1 keys1|s1]; cbn [settled] in *.
  - apply Hg; apply Hf.
  - exact Hf.
Qed.

Lemma alarmLoop_settled (keys : list ascii) :
  forall codeEntryMode s,
    consistent s -> settled (alarmLoop keys codeEntryMode s).
Proof.
  induction keys as [|key keys IH]; intros mode s Hs; cbn [alarmLoop].
  - consistent_cases I.
  - repeat case_match; try apply IH; clear IH; consistent_cases I.
Qed.

Lemma handleAlarm_settled s keys :
  consistent s -> settled (handleAlarm s keys).
Proof.
  intros Hs. unfold handleAlarm. apply alarmLoop_settled.
  consistent_cases I.
Qed.

Lemma handleKeypress_steady (key : ascii) : steady (handleKeypress key).
Proof.
  intros s keys Hs Hn. unfold handleKeypress.
  consistent_cases handleAlarm_settled.
Qed.

Lemma handleMotionDetected_steady (msg : string) :
  steady (handleMotionDetected msg).
Proof.
  intros s keys Hs Hn. unfold handleMotionDetected.
  consistent_cases handleAlarm_settled.
Qed.

Lemma processEntryDelay_steady (now : Z) : steady (processEntryDelay now).
Proof.
  intros s keys Hs Hn. unfold processEntryDelay.
  consistent_cases handleAlarm_settled.
Qed.

Lemma checkMotion_steady (sn : Sensors) : steady (checkMotion sn).
Proof.
  intros s keys Hs Hn. unfold checkMotion.
  repeat case_match; try (apply handleMotionDetected_steady; assumption);
    split; assumption.
Qed.

Lemma checkDoor_steady (sn : Sensors) : steady (checkDoor sn).
Proof.
  intros s keys Hs Hn. unfold checkDoor, handleDoorOpen.
  consistent_cases handleAlarm_settled.
Qed.

Lemma handleUltrasonicAlert_settled (msg : string) (now : Z) s keys :
  consistent s -> currentState s <> ALARM -> entryDelayActive s = false ->
  settled (handleUltrasonicAlert msg now s keys).
Proof.
  intros Hs Hn Ha. unfold handleUltrasonicAlert.
  consistent_cases handleAlarm_settled.
Qed.

Lemma measureDistance_frame (now : Z) (e : option Q) s :
  let s' := snd (measureDistance now e s) in
  inputCode s' = inputCode s /\ codeIndex s' = codeIndex s
  /\ currentState s' = currentState s
  /\ entryDelayActive s' = entryDelayActive s.
Proof.
  unfold measureDistance. repeat case_match; destruct s; cbn; auto.
Qed.

Lemma checkUltrasonic_steady (sn : Sensors) : steady (checkUltrasonic sn).
Proof.
  intros s keys Hs Hn. unfold checkUltrasonic.
  case_match; [|split; assumption]. bools.
  destruct (measureDistance_frame (t_measure sn) (echo sn) s)
    as (Hb & Hi & Hst & Ha).
  destruct (measureDistance (t_measure sn) (echo sn) s) as [d s1].
  cbn [snd] in *.
  assert (Hs1 : consistent s1).
  { unfold consistent, wfBuffer in *. rewrite Hb, Hi, Hst, Ha. exact Hs. }
  assert (Hn1 : currentState s1 <> ALARM) by congruence.
  assert (Ha1 : entryDelayActive s1 = false) by congruence.
  clear Hb Hi Hst Ha Hs Hn.
  repeat case_match;
    try (apply handleUltrasonicAlert_settled);
    try (split; assumption);
    open_consistent; try tauto; try congruence; try discriminate.
Qed.

Lemma checkEntryDelay_steady (sn : Sensors) : steady (checkEntryDelay sn).
Proof.
  intros s keys Hs Hn. unfold checkEntryDelay.
  case_match; [apply processEntryDelay_steady; assumption|].
  split; assumption.
Qed.

Lemma checkSensors_steady (sn : Sensors) : steady (checkSensors sn).
Proof.
  unfold checkSensors.
  repeat apply steady_andThen;
    auto using checkMotion_steady, checkDoor_steady,
      checkUltrasonic_steady, checkEntryDelay_steady.
Qed.

Lemma tick_steady (sn : Sensors) : steady (tick sn).
Proof.
  intros s keys Hs Hn. unfold tick.
  destruct (scanKeypad keys) as [key keys'].
  apply steady_andThen; [| |exact Hs|exact Hn]; intros s1 keys1 Hs1 Hn1.
  - case_match; [apply handleKeypress_steady; assumption|split; assumption].
  - case_match; [apply checkSensors_steady; assumption|split; assumption].
Qed.

Lemma run_steady (ticks : list Sensors) : steady (run ticks).
Proof.
  induction ticks as [|sn ticks IH]; intros s keys Hs Hn; cbn [run].
  - split; assumption.
  - apply steady_andThen; auto using tick_steady.
Qed.

End Consistency.

(** ** The code comparison *)

Section Validate.

Lemma N_of_ascii_inj (x y : ascii) : N_of_ascii x = N_of_ascii y -> x = y.
Proof.
  intros H. rewrite <- (ascii_N_embedding x), <- (ascii_N_embedding y).
  rewrite H. reflexivity.
Qed.

Lemma N_of_ascii_0 (x : ascii) : Z.of_N (N_of_ascii x) = 0 <-> x = NUL.
Proof.
  split.
  - intros H. apply N_of_ascii_inj. change (N_of_ascii NUL) with 0%N. lia.
  - intros ->. reflexivity.
Qed.

(** [strcmp] returns 0 exactly when the two C strings are equal. *)
Lemma strcmp_0_iff (a : list ascii) :
  forall b, strcmp a b = 0 <-> cstr a = cstr b.
Proof.
  induction a as [|x a IH]; intros [|y b]; cbn [strcmp cstr].
  - tauto.
  - case_bool_decide as Hy.
    + subst y. tauto.
    + split; [|discriminate].
      intros H. exfalso. apply Hy, N_of_ascii_0. lia.
  - case_bool_decide as Hx.
    + subst x. tauto.
    + split; [|discriminate].
      intros H. exfalso. apply Hx, N_of_ascii_0. lia.
  - case_bool_decide as Hxy.
    + subst y. case_bool_decide as Hx; [tauto|].
      rewrite IH. split; [congruence|]. intros [= ->]. reflexivity.
    + split.
      * intros H. exfalso. apply Hxy, N_of_ascii_inj. lia.
      * repeat case_bool_decide; subst; try discriminate; try congruence.
Qed.

Lemma isDigit_not_NUL (c : ascii) : isDigit c = true -> c <> NUL.
Proof. intros H ->. vm_compute in H. discriminate. Qed.

(** On a well-formed buffer the code is accepted exactly when the buffer
    holds the four digits of the code. *)
Lemma validateCode_wf s :
  wfBuffer s -> (validateCode s = true <-> inputCode s = SECURITY_CODE).
Proof.
  intros H. unfold validateCode.
  rewrite bool_decide_eq_true, strcmp_0_iff.
  destruct (wfBuf_cases _ _ H)
    as [(_ & ->)|[(a & _ & Ha & ->)|[(a & b & _ & Ha & Hb & ->)
       |[(a & b & c & _ & Ha & Hb & Hc & ->)
        |(a & b & c & d & _ & Ha & Hb & Hc & Hd & ->)]]]];
    repeat match goal with
    | H : isDigit _ = true |- _ => apply isDigit_not_NUL in H
    end;
    cbn [cstr]; rewrite ?bool_decide_eq_false_2 by assumption;
    rewrite ?bool_decide_eq_true_2 by reflexivity;
    (split; [|intros [= -> -> -> ->] || intros [=]; try reflexivity]);
    try discriminate.
  all: intros Hc'; vm_compute in Hc'; try discriminate.
  all: injection Hc' as -> -> -> ->; reflexivity.
Qed.

End Validate.

(** ** Leaving the alarm *)

Section Disarming.

(** One iteration of the sub-loop, by what the scan returns. *)
Lemma alarmLoop_open s keys :
  currentState s = ALARM ->
  alarmLoop ("C"%char :: keys) false s
  = alarmLoop keys true
      (s |> playTone 1760 100 |> clearCode |> set_lastCommand "C"%char
         |> showStatus "Enter Code:").
Proof.
  intros Hs. cbn [alarmLoop]. rewrite bool_decide_eq_true_2 by exact Hs.
  reflexivity.
Qed.

Lemma alarmLoop_digit (key : ascii) s keys :
  currentState s = ALARM -> isDigit key = true -> codeIndex s < 4 ->
  alarmLoop (key :: keys) true s
  = alarmLoop keys true
      (s |> playTone 1760 100 |> pushDigit key |> showInputCode
         |> playTone 1000 50).
Proof.
  intros Hs Hd Hi. cbn [alarmLoop]. rewrite bool_decide_eq_true_2 by exact Hs.
  destruct (isDigit_not_command key Hd) as (_ & _ & _ & _ & _ & _ & Hn).
  rewrite (bool_decide_eq_true_2 (key <> NUL)) by assumption.
  assert (Hi' : (codeIndex (playTone 1760 100 s) <? 4) = true)
    by (apply Z.ltb_lt; destruct s; exact Hi).
  rewrite Hd, Hi'. reflexivity.
Qed.

Lemma alarmLoop_submit s keys :
  currentState s = ALARM -> codeIndex s = 4 ->
  alarmLoop ("#"%char :: keys) true s
  = if validateCode s then
      Returned
        (s |> playTone 1760 100 |> resetEntryDelay
           |> set_currentState DISARMED |> logEvent "Alarm Disarmed"
           |> showStatus "DISARMED" |> updateLED DISARMED) keys
    else
      alarmLoop keys false
        (s |> playTone 1760 100 |> logEvent "Wrong Code Entry During Alarm"
           |> showStatus "Wrong Code!" |> showStatus "! ALARM !"
           |> clearCode).
Proof.
  intros Hs Hi. cbn [alarmLoop]. rewrite bool_decide_eq_true_2 by exact Hs.
  assert (Hi' : codeIndex (playTone 1760 100 s) = 4) by (destruct s; exact Hi).
  assert (Hv : validateCode (playTone 1760 100 s) = validateCode s)
    by (destruct s; reflexivity).
  rewrite Hi', Hv. reflexivity.
Qed.

(** A whole attempt with four digits, started in the alarm phase. *)
Lemma alarmLoop_attempt (a b c d : ascii) s keys :
  currentState s = ALARM ->
  isDigit a = true -> isDigit b = true ->
  isDigit c = true -> isDigit d = true ->
  exists s1,
    alarmLoop (attempt [a; b; c; d] ++ keys) false s
    = alarmLoop ("#"%char :: keys) true s1
    /\ currentState s1 = ALARM
    /\ codeIndex s1 = 4
    /\ inputCode s1 = [a; b; c; d; NUL]
    /\ lastCommand s1 = "C"%char
    /\ entryDelayActive s1 = entryDelayActive s
    /\ logged s1 = logged s.
Proof.
  intros Hs Ha Hb Hc Hd. unfold attempt. cbn [app].
  rewrite alarmLoop_open by exact Hs.
  rewrite alarmLoop_digit;
    [|destruct s; exact Hs|exact Ha|destruct s; cbn; lia].
  rewrite alarmLoop_digit;
    [|destruct s; exact Hs|exact Hb|destruct s; cbn; lia].
  rewrite alarmLoop_digit;
    [|destruct s; exact Hs|exact Hc|destruct s; cbn; lia].
  rewrite alarmLoop_digit;
    [|destruct s; exact Hs|exact Hd|destruct s; cbn; lia].
  eexists. split; [reflexivity|].
  repeat split; try (destruct s; reflexivity).
  - destruct s; exact Hs.
  - logs.
Qed.

Lemma validateCode_digits (a b c d : ascii) s :
  isDigit a = true -> isDigit b = true ->
  isDigit c = true -> isDigit d = true ->
  inputCode s = [a; b; c; d; NUL] ->
  validateCode s = bool_decide ([a; b; c; d] = typed "2580").
Proof.
  intros Ha Hb Hc Hd Hbuf.
  apply isDigit_not_NUL in Ha, Hb, Hc, Hd.
  unfold validateCode. apply bool_decide_ext.
  rewrite strcmp_0_iff, Hbuf. cbn [cstr].
  rewrite !bool_decide_eq_false_2 by assumption.
  rewrite bool_decide_eq_true_2 by reflexivity.
  reflexivity.
Qed.

End Disarming.

Section NoLockout.

Lemma alarmLoop_right_code s rest :
  currentState s = ALARM ->
  exists s',
    alarmLoop (attempt (typed "2580") ++ rest) false s = Returned s' rest
    /\ currentState s' = DISARMED
    /\ entryDelayActive s' = false
    /\ lastCommand s' = "C"%char
    /\ logged s' = logged s ++ ["Alarm Disarmed"].
Proof.
  intros Hs.
  destruct (alarmLoop_attempt "2" "5" "8" "0" s rest Hs)
    as (s1 & E & Hs1 & Hi1 & Hb1 & Hc1 & _ & Hl1); try reflexivity.
  change (typed "2580") with ["2"; "5"; "8"; "0"]%char.
  rewrite E, alarmLoop_submit by assumption.
  rewrite (validateCode_digits "2" "5" "8" "0") by (reflexivity || assumption).
  rewrite bool_decide_eq_true_2 by reflexivity.
  eexists. split; [reflexivity|].
  repeat split; try (destruct s1; reflexivity).
  - destruct s1; cbn in *; assumption.
  - rewrite <- Hl1. logs.
Qed.

Lemma alarmLoop_wrong_code (w : list ascii) s keys :
  currentState s = ALARM -> wrongCode w ->
  exists s2,
    alarmLoop (attempt w ++ keys) false s = alarmLoop keys false s2
    /\ currentState s2 = ALARM
    /\ logged s2 = logged s ++ ["Wrong Code Entry During Alarm"].
Proof.
  intros Hs (Hl & Hd & Hw).
  destruct w as [|a [|b [|c [|d [|? ?]]]]]; try discriminate.
  repeat (apply Forall_cons in Hd as [? Hd]).
  destruct (alarmLoop_attempt a b c d s keys Hs)
    as (s1 & E & Hs1 & Hi1 & Hb1 & _ & _ & Hl1); try assumption.
  rewrite E, alarmLoop_submit by assumption.
  rewrite (validateCode_digits a b c d) by assumption.
  rewrite bool_decide_eq_false_2 by exact Hw.
  eexists. split; [reflexivity|].
  split; [destruct s1; exact Hs1|].
  rewrite <- Hl1. logs.
Qed.

Lemma alarmLoop_no_lockout (wrongs : list (list ascii)) :
  forall s rest,
    currentState s = ALARM -> Forall wrongCode wrongs ->
    exists s',
      alarmLoop (concat (map attempt wrongs) ++ attempt (typed "2580") ++ rest)
        false s = Returned s' rest
      /\ currentState s' = DISARMED
      /\ entryDelayActive s' = false
      /\ lastCommand s' = "C"%char
      /\ logged s'
         = logged s
           ++ replicate (length wrongs) "Wrong Code Entry During Alarm"
           ++ ["Alarm Disarmed"].
Proof.
  induction wrongs as [|w wrongs IH]; intros s rest Hs Hw.
  - cbn [map concat app length replicate]. apply alarmLoop_right_code, Hs.
  - apply Forall_cons in Hw as [Hw Hws].
    cbn [map concat]. rewrite <- app_assoc.
    destruct (alarmLoop_wrong_code w s
                (concat (map attempt wrongs) ++ attempt (typed "2580") ++ rest)
                Hs Hw) as (s2 & -> & Hs2 & Hl2).
    destruct (IH s2 rest Hs2 Hws) as (s' & E & H1 & H2 & H3 & H4).
    exists s'. split; [exact E|]. repeat split; try assumption.
    rewrite H4, Hl2. cbn [length replicate]. rewrite <- app_assoc.
    reflexivity.
Qed.

(** The sub-loop only ends on a '#': while none is scanned the alarm keeps
    sounding. *)
Lemma alarmLoop_needs_hash (keys : list ascii) :
  forall codeEntryMode s,
    currentState s = ALARM -> "#"%char ∉ keys ->
    exists s', alarmLoop keys codeEntryMode s = Sounding s'
               /\ currentState s' = ALARM.
Proof.
  induction keys as [|key keys IH]; intros mode s Hs Hk; cbn [alarmLoop];
    rewrite bool_decide_eq_true_2 by exact Hs.
  - eexists. split; [reflexivity|]. destruct s; exact Hs.
  - apply not_elem_of_cons in Hk as [Hk Hks].
    repeat case_match; bools; try congruence;
      apply IH; try assumption; destruct s; exact Hs.
Qed.

(** Nor does it open code entry before a 'C' is scanned. *)
Lemma alarmLoop_needs_C (keys : list ascii) :
  forall s,
    currentState s = ALARM -> "C"%char ∉ keys ->
    exists s', alarmLoop keys false s = Sounding s'
               /\ currentState s' = ALARM.
Proof.
  induction keys as [|key keys IH]; intros s Hs Hk; cbn [alarmLoop];
    rewrite bool_decide_eq_true_2 by exact Hs.
  - eexists. split; [reflexivity|]. destruct s; exact Hs.
  - apply not_elem_of_cons in Hk as [Hk Hks]. cbn [negb].
    rewrite bool_decide_eq_false_2 by congruence.
    apply IH; assumption.
Qed.

End NoLockout.

(** ** Command sequences *)

Section Commands.

Lemma normalPath_gate s :
  normalPath s ->
  bool_decide (currentState (playTone 1000 50 s) = ARMED_AWAY)
  && entryDelayActive (playTone 1000 50 s) = false.
Proof.
  intros [H|H]; destruct s; cbn in *.
  - rewrite bool_decide_eq_false_2 by assumption. reflexivity.
  - subst. apply andb_false_r.
Qed.

Lemma handleKeypress_arm (cmd : ascii) s keys :
  normalPath s -> currentState s <> ALARM ->
  cmd = "A"%char \/ cmd = "B"%char ->
  handleKeypress cmd s keys
  = Returned (s |> playTone 1000 50 |> showStatus "Enter Code:" |> clearCode
                |> set_lastCommand cmd) keys.
Proof.
  intros Hp Hn Hc. unfold handleKeypress.
  rewrite normalPath_gate by assumption.
  assert (Hn' : currentState (playTone 1000 50 s) <> ALARM)
    by (destruct s; exact Hn).
  rewrite !(bool_decide_eq_true_2 (currentState _ <> ALARM)) by assumption.
  destruct Hc as [-> | ->]; reflexivity.
Qed.

Lemma handleKeypress_disarm s keys :
  normalPath s -> currentState s <> DISARMED ->
  handleKeypress "C" s keys
  = Returned (s |> playTone 1000 50 |> showStatus "Enter Code:" |> clearCode
                |> set_lastCommand "C"%char) keys.
Proof.
  intros Hp Hn. unfold handleKeypress.
  rewrite normalPath_gate by assumption.
  assert (Hn' : currentState (playTone 1000 50 s) <> DISARMED)
    by (destruct s; exact Hn).
  rewrite !(bool_decide_eq_true_2 (currentState _ <> DISARMED))
    by assumption.
  reflexivity.
Qed.

Lemma handleKeypress_digit (key : ascii) s keys :
  normalPath s -> isDigit key = true -> codeIndex s < 4 ->
  handleKeypress key s keys
  = Returned (s |> playTone 1000 50 |> pushDigit key |> showInputCode) keys.
Proof.
  intros Hp Hd Hi. unfold handleKeypress.
  rewrite normalPath_gate by assumption.
  destruct (isDigit_not_command key Hd) as (HA & HB & HC & HD & Hs & Hh & _).
  rewrite !(bool_decide_eq_false_2 (key = _)) by assumption.
  assert (Hi' : (codeIndex (playTone 1000 50 s) <? 4) = true)
    by (apply Z.ltb_lt; destruct s; exact Hi).
  rewrite Hd, Hi'. reflexivity.
Qed.

Lemma handleKeypress_submit s keys :
  normalPath s -> codeIndex s = 4 ->
  handleKeypress "#" s keys
  = let s := s |> playTone 1000 50 in
    let s :=
      if validateCode s then
        let s :=
          if bool_decide (lastCommand s = "A"%char) then
            s |> resetEntryDelay |> set_currentState ARMED_HOME
              |> showStatus "ARMED HOME"
              |> logEvent "System Armed - Home Mode"
          else if bool_decide (lastCommand s = "B"%char) then
            s |> resetEntryDelay |> set_currentState ARMED_AWAY
              |> showStatus "ARMED AWAY"
              |> logEvent "System Armed - Away Mode"
          else if bool_decide (lastCommand s = "C"%char) then
            s |> resetEntryDelay |> set_currentState DISARMED
              |> showStatus "DISARMED" |> logEvent "System Disarmed"
          else s in
        s |> updateLED (currentState s) |> playTone 880 100
      else
        let s := s |> showStatus "Wrong Code!" |> playTone 220 500 in
        match currentState s with
        | DISARMED => s |> showStatus "DISARMED"
        | ARMED_HOME => s |> showStatus "ARMED HOME"
        | ARMED_AWAY => s |> showStatus "ARMED AWAY"
        | ALARM => s |> showStatus "! ALARM !"
        end in
    Returned (s |> clearCode) keys.
Proof.
  intros Hp Hi. unfold handleKeypress.
  rewrite normalPath_gate by assumption.
  assert (Hi' : (codeIndex (playTone 1000 50 s) =? 4) = true)
    by (apply Z.eqb_eq; destruct s; exact Hi).
  repeat (rewrite bool_decide_eq_false_2 by discriminate).
  rewrite bool_decide_eq_true_2 by reflexivity.
  rewrite Hi'. reflexivity.
Qed.

(** A command key followed by four digits: the buffer holds the digits
    whatever it held before. *)
Lemma pressKeys_entry (cmd a b c d : ascii) s keys (rest : list ascii) :
  handleKeypress cmd s keys
  = Returned (s |> playTone 1000 50 |> showStatus "Enter Code:" |> clearCode
                |> set_lastCommand cmd) keys ->
  normalPath s ->
  isDigit a = true -> isDigit b = true ->
  isDigit c = true -> isDigit d = true ->
  exists s1,
    pressKeys (cmd :: a :: b :: c :: d :: rest) s keys
    = pressKeys rest s1 keys
    /\ inputCode s1 = [a; b; c; d; NUL]
    /\ codeIndex s1 = 4
    /\ lastCommand s1 = cmd
    /\ currentState s1 = currentState s
    /\ entryDelayActive s1 = entryDelayActive s
    /\ entryDelayStart s1 = entryDelayStart s
    /\ logged s1 = logged s.
Proof.
  intros Hcmd Hp Ha Hb Hc Hd.
  cbn [pressKeys]. unfold andThen at 1. rewrite Hcmd.
  unfold andThen at 1.
  rewrite handleKeypress_digit;
    [|destruct s; exact Hp|exact Ha|destruct s; cbn; lia].
  unfold andThen at 1.
  rewrite handleKeypress_digit;
    [|destruct s; exact Hp|exact Hb|destruct s; cbn; lia].
  unfold andThen at 1.
  rewrite handleKeypress_digit;
    [|destruct s; exact Hp|exact Hc|destruct s; cbn; lia].
  unfold andThen at 1.
  rewrite handleKeypress_digit;
    [|destruct s; exact Hp|exact Hd|destruct s; cbn; lia].
  eexists. split; [reflexivity|].
  repeat split; try (destruct s; reflexivity). logs.
Qed.

Lemma handleKeypress_command (cmd : ascii) s keys :
  normalPath s -> accepted cmd s ->
  handleKeypress cmd s keys
  = Returned (s |> playTone 1000 50 |> showStatus "Enter Code:" |> clearCode
                |> set_lastCommand cmd) keys.
Proof.
  intros Hp [[-> Hn]|[[-> Hn]|[-> Hn]]].
  - apply handleKeypress_arm; auto.
  - apply handleKeypress_arm; auto.
  - apply handleKeypress_disarm; auto.
Qed.

End Commands.

(** X7: outside an entry delay, an accepted command key,
    the digits 2 5 8 0 and '#' carry the command out whatever the buffer
    held before: the state is the one asked for, the entry delay is reset,
    the buffer is empty again and one line is logged. *)
Theorem command_code_hash (cmd : ascii) s keys :
  normalPath s -> accepted cmd s ->
  exists s',
    pressKeys (cmd :: typed "2580#") s keys = Returned s' keys
    /\ currentState s' = commandState cmd
    /\ entryDelayActive s' = false
    /\ entryDelayStart s' = 0
    /\ codeIndex s' = 0
    /\ inputCode s' = replicate 5 NUL
    /\ lastCommand s' = cmd
    /\ logged s' = logged s ++ [commandEvent cmd].
Proof.
  intros Hp Hacc.
  pose proof (handleKeypress_command cmd s keys Hp Hacc) as Hcmd.
  destruct (pressKeys_entry cmd "2" "5" "8" "0" s keys ["#"%char] Hcmd Hp)
    as (s1 & E & Hb & Hi & Hc & Hs & Ha & _ & Hl); try reflexivity.
  change (typed "2580#") with ["2"; "5"; "8"; "0"; "#"]%char.
  rewrite E. cbn [pressKeys]. unfold andThen.
  assert (Hp1 : normalPath s1) by (unfold normalPath; rewrite Hs, Ha; exact Hp).
  rewrite handleKeypress_submit by assumption. cbv zeta.
  change (validateCode (playTone 1000 50 s1)) with (validateCode s1).
  rewrite (validateCode_digits "2" "5" "8" "0") by (reflexivity || assumption).
  rewrite bool_decide_eq_true_2 by reflexivity.
  change (lastCommand (playTone 1000 50 s1)) with (lastCommand s1).
  rewrite <- Hl.
  destruct Hacc as [[-> _]|[[-> _]|[-> _]]];
    rewrite Hc;
    repeat (rewrite bool_decide_eq_false_2 by discriminate);
    rewrite bool_decide_eq_true_2 by reflexivity;
    (eexists; split; [reflexivity|]); eval_command;
    (repeat split;
     try (destruct s1; cbn in *; first [reflexivity | assumption]));
    clear; logs.
Qed.

(** X8: outside an entry delay and the alarm, an accepted
    command key, four digits that are not the code and '#' change neither
    the state nor the entry delay, and write nothing to the log; the buffer
    is emptied and the command stays stored. *)
Theorem wrong_code_refused (cmd : ascii) (w : list ascii) s keys :
  normalPath s -> accepted cmd s -> wrongCode w ->
  exists s',
    pressKeys (cmd :: w ++ ["#"%char]) s keys = Returned s' keys
    /\ currentState s' = currentState s
    /\ entryDelayActive s' = entryDelayActive s
    /\ entryDelayStart s' = entryDelayStart s
    /\ codeIndex s' = 0
    /\ inputCode s' = replicate 5 NUL
    /\ lastCommand s' = cmd
    /\ logged s' = logged s.
Proof.
  intros Hp Hacc (Hlen & Hd & Hw).
  destruct w as [|a [|b [|c [|d [|? ?]]]]]; try discriminate.
  repeat (apply Forall_cons in Hd as [? Hd]).
  pose proof (handleKeypress_command cmd s keys Hp Hacc) as Hcmd.
  destruct (pressKeys_entry cmd a b c d s keys ["#"%char] Hcmd Hp)
    as (s1 & E & Hb & Hi & Hc & Hs & Ha & Hst & Hl); try assumption.
  cbn [app]. rewrite E. cbn [pressKeys]. unfold andThen.
  assert (Hp1 : normalPath s1) by (unfold normalPath; rewrite Hs, Ha; exact Hp).
  rewrite handleKeypress_submit by assumption. cbv zeta.
  change (validateCode (playTone 1000 50 s1)) with (validateCode s1).
  rewrite (validateCode_digits a b c d) by assumption.
  rewrite bool_decide_eq_false_2 by exact Hw.
  rewrite <- Hs, <- Ha, <- Hst, <- Hc, <- Hl.
  eexists. split; [reflexivity|].
  repeat split; try (destruct s1 as [[] ? ? ? ? ? ? ? ? ? ? ?]; reflexivity).
  clear; destruct s1 as [[] ? ? ? ? ? ? ? ? ? ? ?]; logs.
Qed.

(** ** Backspace *)

Section Backspace.

Lemma gate_true s :
  currentState s = ARMED_AWAY -> entryDelayActive s = true ->
  bool_decide (currentState (playTone 1000 50 s) = ARMED_AWAY)
  && entryDelayActive (playTone 1000 50 s) = true.
Proof. intros Hs Ha. destruct s; cbn in *; subst. reflexivity. Qed.

Lemma handleKeypress_digit_delay (key : ascii) s keys :
  currentState s = ARMED_AWAY -> entryDelayActive s = true ->
  isDigit key = true -> codeIndex s < 4 ->
  handleKeypress key s keys
  = Returned (s |> playTone 1000 50 |> pushDigit key |> showCodeProgress) keys.
Proof.
  intros Hs Ha Hd Hi. unfold handleKeypress. rewrite gate_true by assumption.
  assert (Hi' : (codeIndex (playTone 1000 50 s) <? 4) = true)
    by (apply Z.ltb_lt; destruct s; exact Hi).
  rewrite Hd, Hi'. reflexivity.
Qed.

Lemma handleKeypress_star s keys :
  normalPath s -> 0 < codeIndex s ->
  handleKeypress "*" s keys
  = Returned (s |> playTone 1000 50 |> popDigit |> showInputCode) keys.
Proof.
  intros Hp Hi. unfold handleKeypress. rewrite normalPath_gate by assumption.
  assert (Hi' : (codeIndex (playTone 1000 50 s) >? 0) = true)
    by (rewrite Z.gtb_ltb; apply Z.ltb_lt; destruct s; exact Hi).
  repeat (rewrite bool_decide_eq_false_2 by discriminate).
  rewrite bool_decide_eq_true_2 by reflexivity.
  rewrite Hi'. reflexivity.
Qed.

Lemma handleKeypress_star_delay s keys :
  currentState s = ARMED_AWAY -> entryDelayActive s = true ->
  0 < codeIndex s ->
  handleKeypress "*" s keys
  = Returned (s |> playTone 1000 50 |> popDigit |> showCodeProgress) keys.
Proof.
  intros Hs Ha Hi. unfold handleKeypress. rewrite gate_true by assumption.
  assert (Hi' : (codeIndex (playTone 1000 50 s) >? 0) = true)
    by (rewrite Z.gtb_ltb; apply Z.ltb_lt; destruct s; exact Hi).
  change (isDigit "*") with false.
  rewrite bool_decide_eq_false_2 by discriminate.
  rewrite bool_decide_eq_true_2 by reflexivity.
  rewrite Hi'. reflexivity.
Qed.

(** Writing a digit at the end of a well-formed buffer and zeroing that
    byte again gives the buffer back. *)
Lemma push_pop_buffer (buf : list ascii) (idx : Z) (key : ascii) :
  wfBuf buf idx -> idx < 4 ->
  <[Z.to_nat (idx + 1 - 1) := NUL]> (<[Z.to_nat idx := key]> buf) = buf.
Proof.
  intros H Hlt.
  destruct (wfBuf_cases _ _ H)
    as [(-> & ->)|[(a & -> & ? & ->)|[(a & b & -> & ? & ? & ->)
       |[(a & b & c & -> & ? & ? & ? & ->)|(a & b & c & d & -> & _)]]]];
    try lia; reflexivity.
Qed.

End Backspace.

(** X9: on a well-formed buffer with room left, a
    digit followed by '*' gives back the buffer and its length, in the
    entry-delay path as in the normal one; state, stored command and log
    are untouched. *)
Theorem digit_then_star_restores (key : ascii) s keys :
  wfBuffer s -> codeIndex s < 4 -> isDigit key = true ->
  exists s',
    pressKeys [key; "*"%char] s keys = Returned s' keys
    /\ inputCode s' = inputCode s
    /\ codeIndex s' = codeIndex s
    /\ currentState s' = currentState s
    /\ lastCommand s' = lastCommand s
    /\ logged s' = logged s.
Proof.
  intros Hwf Hi Hd.
  assert (Hr : 0 <= codeIndex s) by (destruct Hwf as [? _]; lia).
  pose proof (push_pop_buffer _ _ key Hwf Hi) as Hpp.
  cbn [pressKeys]. unfold andThen.
  destruct (bool_decide (currentState s = ARMED_AWAY) && entryDelayActive s)
    eqn:Hg.
  - bools.
    rewrite handleKeypress_digit_delay by assumption.
    rewrite handleKeypress_star_delay;
      [|destruct s; assumption|destruct s; assumption
       |destruct s; cbn in *; lia].
    eexists. split; [reflexivity|].
    destruct s; cbn in *.
    repeat split; try assumption; try lia. clear; logs.
  - assert (Hp : normalPath s).
    { unfold normalPath. apply andb_false_iff in Hg as [Hg|Hg]; bools; auto. }
    rewrite handleKeypress_digit by assumption.
    rewrite handleKeypress_star;
      [|destruct s; exact Hp|destruct s; cbn in *; lia].
    eexists. split; [reflexivity|].
    destruct s; cbn in *.
    repeat split; try assumption; try lia. clear; logs.
Qed.

(** ** Door and proximity in away mode *)

(** X10: in away mode a pass that reads the
    door open after a pass that read it closed logs "Entry Started", makes
    the entry delay active with the clock value just read as its start --
    also when a delay was already running -- and empties the code buffer;
    a pass without that edge only records the door level. *)
Theorem door_edge_starts_entry_delay sn s keys :
  currentState s = ARMED_AWAY ->
  exists s',
    checkDoor sn s keys = Returned s' keys
    /\ currentState s' = ARMED_AWAY
    /\ lastDoorState s' = doorSensor sn
    /\ (doorSensor sn = true -> lastDoorState s = false ->
        entryDelayActive s' = true
        /\ entryDelayStart s' = u32 (t_door sn)
        /\ codeIndex s' = 0
        /\ inputCode s' = replicate 5 NUL
        /\ logged s' = logged s ++ ["Entry Started"])
    /\ (doorSensor sn = false \/ lastDoorState s = true ->
        s' = set_lastDoorState (doorSensor sn) s).
Proof.
  intros Hs. unfold checkDoor, handleDoorOpen.
  eexists. split; [reflexivity|].
  destruct s as [st buf idx cmd act start door ualert zone meas upd o].
  cbn in Hs. subst st. cbn.
  destruct (doorSensor sn), door; cbn; repeat split;
    try (intros; discriminate); try (intros [?|?]; discriminate);
    try reflexivity; intros; clear; logs.
Qed.

(** X11: whatever the echo, the distance handed to the
    caller lies between 2 and 400 cm; and a call less than 60 ms after the
    last measurement reports 400 cm without touching the state. *)
Theorem measureDistance_range (now : Z) (e : option Q) s :
  (2 <= fst (measureDistance now e s) <= 400)%Q
  /\ (u32 (u32 now - lastMeasureTime s) < 60 ->
      measureDistance now e s = (400%Q, s)).
Proof.
  unfold measureDistance. split.
  - repeat case_match; cbn [fst]; try (split; discriminate).
    match goal with H : _ || _ = false |- _ =>
      apply orb_false_iff in H as [H1 H2] end.
    unfold Qltb in *. apply negb_false_iff in H1, H2.
    apply Qle_bool_iff in H1, H2. split; assumption.
  - intros H. apply Z.ltb_lt in H. rewrite H. reflexivity.
Qed.

(** X12: in away mode with no entry delay, an
    accepted reading under 10 cm with the latch clear sets the latch and,
    unless the last alert is less than 1000 ms old, logs "Window Breach!"
    and raises the alarm; when it is that recent the latch is set all the
    same and nothing else happens.  While an entry delay is active the
    distance is not measured at all. *)
Theorem window_breach_in_away_mode sn s (d : Q) :
  currentState s = ARMED_AWAY ->
  (entryDelayActive s = false -> inAlertZone s = false ->
   echo sn = Some d -> Qltb d 2 || Qltb 400 d = false -> Qltb d 10 = true ->
   60 <= u32 (u32 (t_measure sn) - lastMeasureTime s) ->
   (1000 <= u32 (u32 (t_alert sn) - lastUltrasonicAlert s) ->
    exists s',
      checkUltrasonic sn s [] = Sounding s'
      /\ currentState s' = ALARM
      /\ inAlertZone s' = true
      /\ logged s' = logged s ++ ["Window Breach!"; "ALARM TRIGGERED"])
   /\ (u32 (u32 (t_alert sn) - lastUltrasonicAlert s) < 1000 ->
       forall keys,
       checkUltrasonic sn s keys
       = Returned (s |> set_lastMeasureTime (u32 (t_measure sn))
                     |> set_inAlertZone true) keys))
  /\ (entryDelayActive s = true ->
      forall keys, checkUltrasonic sn s keys = Returned s keys).
Proof.
  intros Hs. split.
  - intros Ha Hz He Hr Hd Hm.
    unfold checkUltrasonic, measureDistance.
    rewrite Hs, Ha, He. cbn [negb andb].
    rewrite bool_decide_eq_true_2 by discriminate.
    destruct (Z.ltb_spec (u32 (u32 (t_measure sn) - lastMeasureTime s)) 60)
      as [Hlt|_]; [lia|].
    rewrite Hr.
    change (inAlertZone (set_lastMeasureTime (u32 (t_measure sn)) s))
      with (inAlertZone s).
    rewrite Hd, Hz. cbn [negb andb].
    change (currentState (set_inAlertZone true
              (set_lastMeasureTime (u32 (t_measure sn)) s)))
      with (currentState s).
    rewrite Hs. unfold handleUltrasonicAlert.
    change (lastUltrasonicAlert (set_inAlertZone true
              (set_lastMeasureTime (u32 (t_measure sn)) s)))
      with (lastUltrasonicAlert s).
    split.
    + intros Ht. apply Z.ltb_ge in Ht. rewrite Ht.
      change (currentState _) with (currentState s) at 1. rewrite Hs.
      rewrite handleAlarm_idle by (destruct s; reflexivity).
      eexists. split; [reflexivity|].
      repeat split; try (destruct s; reflexivity). clear; logs.
    + intros Ht keys. apply Z.ltb_lt in Ht. rewrite Ht. reflexivity.
  - intros Ha keys. unfold checkUltrasonic. rewrite Ha, andb_false_r.
    reflexivity.
Qed.

(** ** Invariants of the polling loop *)

Lemma consistent_initial : consistent initial.
Proof.
  split; [|discriminate]. split; [cbn; lia|].
  exists []. repeat split. constructor.
Qed.

(** X1: started from a consistent state outside
    ALARM (the power-up state is one), the polling loop always leaves the
    code buffer five bytes long, holding [codeIndex] digits followed by
    NULs -- the terminator in byte 4 is never overwritten -- whether the
    loop returns or is left sounding the alarm. *)
Theorem run_keeps_buffer_well_formed (ticks : list Sensors) s keys :
  consistent s -> currentState s <> ALARM ->
  let s' := final (run ticks s keys) in
  wfBuffer s'
  /\ length (inputCode s') = 5%nat
  /\ inputCode s' !! 4%nat = Some NUL
  /\ (validateCode s' = true <-> inputCode s' = SECURITY_CODE).
Proof.
  intros Hs Hn s'.
  assert (Hwf : wfBuffer s').
  { pose proof (run_steady ticks s keys Hs Hn) as H. subst s'.
    destruct (run ticks s keys); cbn [settled final] in *; apply H. }
  split; [exact Hwf|].
  split; [|split; [|apply validateCode_wf, Hwf]];
    destruct (wfBuf_cases _ _ Hwf)
      as [(_ & ->)|[(a & _ & _ & ->)|[(a & b & _ & _ & _ & ->)
         |[(a & b & c & _ & _ & _ & _ & ->)
          |(a & b & c & d & _ & _ & _ & _ & _ & ->)]]]]; reflexivity.
Qed.

(** X1 witness: on a run from power-up that types more
    digits than fit, backspaces and panics. *)
Lemma run_keeps_buffer_well_formed_witness :
  inputCode (final (run (replicate 10 (quiet 0)) initial
                      (typed "A1234567*D"))) !! 4%nat
  = Some NUL.
Proof.
  apply (run_keeps_buffer_well_formed (replicate 10 (quiet 0)) initial
           (typed "A1234567*D")).
  - exact consistent_initial.
  - discriminate.
Defined.

(** X2: started from a consistent state outside
    ALARM, the polling loop never comes back from a pass in ALARM -- the
    alarm is dealt with inside [handleAlarm] -- and when it is left
    sounding the state is ALARM. *)
Theorem run_returns_outside_alarm (ticks : list Sensors) s keys :
  consistent s -> currentState s <> ALARM ->
  match run ticks s keys with
  | Returned s' _ => currentState s' <> ALARM
  | Sounding s' => currentState s' = ALARM
  end.
Proof.
  intros Hs Hn. pose proof (run_steady ticks s keys Hs Hn) as H.
  destruct (run ticks s keys); cbn [settled] in H; apply H.
Qed.

(** X2 witness: on a panic from power-up with nobody at the
    keypad, and on one disarmed with C 2 5 8 0 #. *)
Lemma run_returns_outside_alarm_witness :
  currentState (final (run (replicate 1 (quiet 0)) initial (typed "D")))
  = ALARM
  /\ currentState
       (final (run (replicate 1 (quiet 0)) initial (typed "DC2580#")))
     <> ALARM.
Proof.
  split.
  - pose proof (run_returns_outside_alarm (replicate 1 (quiet 0)) initial
                  (typed "D") consistent_initial ltac:(discriminate)) as H.
    destruct (run (replicate 1 (quiet 0)) initial (typed "D")) eqn:E;
      [vm_compute in E; discriminate|exact H].
  - pose proof (run_returns_outside_alarm (replicate 1 (quiet 0)) initial
                  (typed "DC2580#") consistent_initial ltac:(discriminate))
      as H.
    destruct (run (replicate 1 (quiet 0)) initial (typed "DC2580#")) eqn:E;
      [exact H|vm_compute in E; discriminate].
Defined.

(** X3: started from a consistent state outside
    ALARM, whenever the polling loop leaves the entry delay active the
    state is ARMED_AWAY: no disarm, re-arm, alarm or time-out leaves a
    window behind. *)
Theorem run_entry_delay_only_in_away (ticks : list Sensors) s keys :
  consistent s -> currentState s <> ALARM ->
  entryDelayActive (final (run ticks s keys)) = true ->
  currentState (final (run ticks s keys)) = ARMED_AWAY.
Proof.
  intros Hs Hn. pose proof (run_steady ticks s keys Hs Hn) as H.
  destruct (run ticks s keys); cbn [settled final] in *; apply H.
Qed.

(** X3 witness: after arming away and opening the
    door. *)
Lemma run_entry_delay_only_in_away_witness :
  currentState
    (final (run (replicate 6 (quiet 0) ++ polls 5000 50 2) initial
              (typed "B2580#")))
  = ARMED_AWAY.
Proof.
  apply (run_entry_delay_only_in_away
           (replicate 6 (quiet 0) ++ polls 5000 50 2) initial (typed "B2580#")).
  - exact consistent_initial.
  - discriminate.
  - vm_compute. reflexivity.
Defined.

(** X4: [strcmp] returns 0 exactly when its two
    arguments hold the same C string, so [validateCode] accepts a
    well-formed buffer exactly when it holds the four digits of the code
    and then [codeIndex] is 4. *)
Theorem validateCode_exact :
  (forall a b, strcmp a b = 0 <-> cstr a = cstr b)
  /\ (forall s,
        wfBuffer s ->
        (validateCode s = true <-> inputCode s = SECURITY_CODE)
        /\ (validateCode s = true -> codeIndex s = 4)).
Proof.
  split; [exact strcmp_0_iff|].
  intros s Hwf. split; [apply validateCode_wf, Hwf|].
  intros Hv. apply validateCode_wf in Hv; [|exact Hwf].
  unfold wfBuffer in Hwf. rewrite Hv in Hwf.
  destruct (wfBuf_cases _ _ Hwf)
    as [(_ & E)|[(a & _ & _ & E)|[(a & b & _ & _ & _ & E)
       |[(a & b & c & _ & _ & _ & _ & E)
        |(a & b & c & d & Hi & _)]]]]; try discriminate.
  exact Hi.
Qed.

(** X4 witness: on the buffer after A 2 5 8 0. *)
Lemma validateCode_exact_witness :
  validateCode (final (run (replicate 5 (quiet 0)) initial (typed "A2580")))
  = true.
Proof.
  apply (proj2 validateCode_exact
           (final (run (replicate 5 (quiet 0)) initial (typed "A2580")))).
  - unfold wfBuffer.
    replace (codeIndex _) with 4 by (vm_compute; reflexivity).
    replace (inputCode _) with SECURITY_CODE by (vm_compute; reflexivity).
    split; [lia|].
    exists ["2"; "5"; "8"; "0"]%char. repeat split. repeat constructor.
  - vm_compute. reflexivity.
Defined.

(** ** Leaving the alarm: the theorems *)

(** X5: however many wrong codes came before -- each a
    'C', four digits other than 2 5 8 0, and '#' -- the next C 2 5 8 0 #
    ends the alarm: [handleAlarm] returns in DISARMED with the entry delay
    off and 'C' as stored command, having logged the alarm, one line per
    wrong code, and the disarm.  Nothing else is counted or delayed. *)
Theorem alarm_no_lockout (wrongs : list (list ascii)) s rest :
  currentState s = ALARM -> Forall wrongCode wrongs ->
  exists s',
    handleAlarm s
      (concat (map attempt wrongs) ++ attempt (typed "2580") ++ rest)
    = Returned s' rest
    /\ currentState s' = DISARMED
    /\ entryDelayActive s' = false
    /\ lastCommand s' = "C"%char
    /\ logged s'
       = logged s ++ ["ALARM TRIGGERED"]
         ++ replicate (length wrongs) "Wrong Code Entry During Alarm"
         ++ ["Alarm Disarmed"].
Proof.
  intros Hs Hw. unfold handleAlarm.
  destruct (alarmLoop_no_lockout wrongs
              (s |> showStatus "! ALARM !" |> updateLED ALARM
                 |> logEvent "ALARM TRIGGERED") rest)
    as (s' & E & H1 & H2 & H3 & H4); [exact Hs|exact Hw|].
  exists s'. split; [exact E|]. repeat split; try assumption.
  rewrite H4.
  assert (Hl : logged (s |> showStatus "! ALARM !" |> updateLED ALARM
                         |> logEvent "ALARM TRIGGERED")
               = logged s ++ ["ALARM TRIGGERED"]) by (clear; logs).
  rewrite Hl, <- app_assoc. reflexivity.
Qed.

(** X5 witness: after the three wrong codes 0000, 1234 and 2581. *)
Lemma alarm_no_lockout_witness :
  exists s',
    handleAlarm (set_currentState ALARM initial)
      (typed "C0000#C1234#C2581#C2580#")
    = Returned s' []
    /\ currentState s' = DISARMED.
Proof.
  destruct (alarm_no_lockout [typed "0000"; typed "1234"; typed "2581"]
              (set_currentState ALARM initial) [])
    as (s' & E & H & _).
  - reflexivity.
  - repeat constructor; discriminate.
  - exists s'. split; [exact E|exact H].
Defined.

(** X6: the alarm sub-loop cannot be left without a
    'C' and a '#': for every sequence of scans that lacks one of them,
    [handleAlarm] entered in ALARM is still sounding, in ALARM, when the
    scans are used up. *)
Theorem alarm_needs_C_and_hash s (keys : list ascii) :
  currentState s = ALARM ->
  "C"%char ∉ keys \/ "#"%char ∉ keys ->
  exists s', handleAlarm s keys = Sounding s' /\ currentState s' = ALARM.
Proof.
  intros Hs [H|H]; unfold handleAlarm.
  - apply alarmLoop_needs_C; [exact Hs|exact H].
  - apply alarmLoop_needs_hash; [exact Hs|exact H].
Qed.

(** X6 witness: on the code typed without 'C', and on the
    code after 'C' without '#'. *)
Lemma alarm_needs_C_and_hash_witness :
  (exists s', handleAlarm (set_currentState ALARM initial) (typed "2580#AB*D")
              = Sounding s')
  /\ (exists s', handleAlarm (set_currentState ALARM initial) (typed "C2580")
                 = Sounding s').
Proof.
  split.
  - destruct (alarm_needs_C_and_hash (set_currentState ALARM initial)
                (typed "2580#AB*D")) as (s' & E & _).
    + reflexivity.
    + left. intros H%list_elem_of_In. cbn in H.
      repeat destruct H as [H|H]; try discriminate. exact H.
    + exists s'. exact E.
  - destruct (alarm_needs_C_and_hash (set_currentState ALARM initial)
                (typed "C2580")) as (s' & E & _).
    + reflexivity.
    + right. intros H%list_elem_of_In. cbn in H.
      repeat destruct H as [H|H]; try discriminate. exact H.
    + exists s'. exact E.
Defined.

(** ** Home mode never escalates *)

(** X13: in home mode with the keypad idle, no
    sequence of passes during which the exterior motion sensor stays quiet
    raises the alarm, whatever the interior sensor, the door and the
    distance read and however often: the state is still ARMED_HOME and no
    "ALARM TRIGGERED" was logged. *)
Theorem home_mode_never_escalates (ticks : list Sensors) :
  forall s,
    currentState s = ARMED_HOME ->
    Forall (fun sn => pirSensor1 sn = false) ticks ->
    exists s',
      run ticks s [] = Returned s' []
      /\ currentState s' = ARMED_HOME
      /\ timesLogged "ALARM TRIGGERED" s' = timesLogged "ALARM TRIGGERED" s.
Proof.
  induction ticks as [|sn ticks IH]; intros s Hs Hp; cbn [run].
  - exists s. auto.
  - apply Forall_cons in Hp as [Hp Hps].
    unfold andThen at 1. unfold tick. cbn [scanKeypad]. unfold andThen.
    rewrite bool_decide_eq_false_2 by (intros H; apply H; reflexivity).
    rewrite Hs. rewrite !bool_decide_eq_true_2 by discriminate. cbn [andb].
    destruct (checkSensors_home_quiet sn s [] Hs Hp)
      as (s1 & -> & Hs1 & _ & Hl1).
    destruct (IH s1 Hs1 Hps) as (s' & E & Hs' & Hl').
    exists s'. split; [exact E|]. split; [exact Hs'|]. congruence.
Qed.

(** X13 witness: on five passes with interior motion, the
    door opening and an object at 5 cm. *)
Lemma home_mode_never_escalates_witness :
  let home := final (run (replicate 6 (quiet 0)) initial (typed "A2580#")) in
  let busy t :=
    {| pirSensor1 := false; pirSensor2 := true; doorSensor := true;
       echo := Some 5%Q; t_door := t; t_measure := t; t_alert := t;
       t_delay := t |} in
  exists s',
    run [busy 2000; busy 3100; busy 4200; busy 5300; busy 6400] home []
    = Returned s' []
    /\ currentState s' = ARMED_HOME.
Proof.
  intros home busy.
  destruct (home_mode_never_escalates
              [busy 2000; busy 3100; busy 4200; busy 5300; busy 6400] home)
    as (s' & E & H & _).
  - reflexivity.
  - repeat constructor.
  - exists s'. split; [exact E|exact H].
Defined.

(** ** The countdown *)

(** X14: with the entry delay active, a pass less than
    1000 ms after the last display update (once there has been one) does
    nothing; otherwise, during the first thirty seconds it shows the
    remaining whole seconds, between 1 and 30, and records the update
    time, and in the thirty-first second it switches the delay off, sets
    the state to ALARM and enters the alarm sub-loop. *)
Theorem entry_delay_countdown (now : Z) s keys :
  entryDelayActive s = true ->
  let elapsed := u32 (u32 now - entryDelayStart s) in
  let due := 1000 <= u32 (u32 now - lastUpdate s) \/ lastUpdate s = 0 in
  (u32 (u32 now - lastUpdate s) < 1000 -> lastUpdate s <> 0 ->
   processEntryDelay now s keys = Returned s keys)
  /\ (due -> elapsed < 30000 ->
      1 <= 30 - elapsed / 1000 <= 30
      /\ processEntryDelay now s keys
         = Returned (s |> set_lastUpdate (u32 now) |> clearDisplay
                       |> emit (Countdown (30 - elapsed / 1000))
                       |> showCodeProgress) keys)
  /\ (due -> 30000 <= elapsed < 31000 ->
      processEntryDelay now s keys
      = handleAlarm (s |> set_lastUpdate (u32 now)
                       |> set_entryDelayActive false
                       |> set_currentState ALARM) keys).
Proof.
  intros Ha elapsed due. subst due. split; [|split].
  - intros Hlt Hnz. unfold processEntryDelay. rewrite Ha. cbn [negb].
    apply Z.leb_gt in Hlt. apply Z.eqb_neq in Hnz. rewrite Hlt, Hnz.
    reflexivity.
  - intros Hg He.
    assert (H0 : 0 <= elapsed) by (apply Z.mod_pos_bound; lia).
    assert (Hq : 0 <= elapsed / 1000 <= 29).
    { split; [apply Z.div_pos; lia|].
      apply Z.lt_succ_r, Z.div_lt_upper_bound; lia. }
    split; [lia|].
    unfold processEntryDelay. rewrite Ha. cbn [negb].
    assert (Hgate : (1000 <=? u32 (u32 now - lastUpdate s))
                    || (lastUpdate s =? 0) = true).
    { apply orb_true_iff.
      destruct Hg; [left; apply Z.leb_le|right; apply Z.eqb_eq]; assumption. }
    rewrite Hgate. fold elapsed.
    assert (Hr : u32 (30 - elapsed / 1000) = 30 - elapsed / 1000)
      by (apply Z.mod_small; lia).
    rewrite Hr.
    assert (Hp : (30 - elapsed / 1000 >? 0) = true)
      by (rewrite Z.gtb_ltb; apply Z.ltb_lt; lia).
    rewrite Hp. cbn [lastUpdate set_lastUpdate]. rewrite Z.eqb_refl.
    reflexivity.
  - intros Hg He. apply processEntryDelay_expiry; assumption.
Qed.

(** X14 witness: eleven and a half seconds after the door
    opened at 5000 ms. *)
Lemma entry_delay_countdown_witness :
  let s := final (run (polls 5000 50 1)
                    (final (run (replicate 6 (quiet 0)) initial
                              (typed "B2580#"))) []) in
  exists s',
    processEntryDelay 16500 s [] = Returned s' []
    /\ out s' = out s ++ [ClearDisplay; Countdown 19; CodeProgress 0].
Proof.
  intros s.
  destruct (entry_delay_countdown 16500 s []) as (_ & H & _).
  - reflexivity.
  - destruct H as [_ H].
    + left. vm_compute. discriminate.
    + vm_compute. reflexivity.
    + eexists. split; [exact H|]. vm_compute. reflexivity.
Defined.

(** ** Real-time clock *)

Section Clock.

(** A boolean check run on every value below [n] holds of each of them. *)
Lemma forall_below (P : Z -> bool) (n : nat) :
  forallb P (map Z.of_nat (seq 0 n)) = true ->
  forall v, 0 <= v < Z.of_nat n -> P v = true.
Proof.
  intros H v Hv. rewrite forallb_forall in H. apply H.
  apply in_map_iff. exists (Z.to_nat v). split; [lia|].
  apply in_seq. lia.
Qed.

Lemma u8_range (z : Z) : 0 <= RTC.u8 z < 256.
Proof. unfold RTC.u8. apply Z.mod_pos_bound. lia. Qed.

Lemma bcd_of_dec (v : Z) :
  0 <= v <= 99 -> RTC.bcdToDec (RTC.decToBcd v) = v.
Proof.
  intros Hv.
  apply Z.eqb_eq.
  apply (forall_below (fun v => RTC.bcdToDec (RTC.decToBcd v) =? v) 100);
    [vm_compute; reflexivity|lia].
Qed.

Lemma dec_of_bcd (h l : Z) :
  0 <= h <= 9 -> 0 <= l <= 9 ->
  RTC.decToBcd (RTC.bcdToDec (16 * h + l)) = 16 * h + l.
Proof.
  intros Hh Hl.
  assert (H : forallb (fun h => forallb (fun l =>
                 RTC.decToBcd (RTC.bcdToDec (16 * h + l)) =? 16 * h + l)
                 (map Z.of_nat (seq 0 10))) (map Z.of_nat (seq 0 10)) = true)
    by (vm_compute; reflexivity).
  pose proof (forall_below _ 10 H h ltac:(lia)) as H1. cbv beta in H1.
  pose proof (forall_below _ 10 H1 l ltac:(lia)) as H2. cbv beta in H2.
  apply Z.eqb_eq. exact H2.
Qed.

(** A field survives encoding, masking and decoding when it is below
    [bound] and the mask keeps every BCD pattern below [bound]. *)
Lemma field_roundtrip (mask : Z) (bound : nat) (v : Z) :
  forallb (fun v => RTC.bcdToDec (Z.land (RTC.u8 (Z.land (RTC.decToBcd v) mask))
                                   mask) =? v)
    (map Z.of_nat (seq 0 bound)) = true ->
  0 <= v < Z.of_nat bound ->
  RTC.bcdToDec (Z.land (RTC.u8 (Z.land (RTC.decToBcd v) mask)) mask) = v.
Proof.
  intros H Hv. apply Z.eqb_eq.
  exact (forall_below _ bound H v Hv).
Qed.

End Clock.

(** X15: [decToBcd] followed by [bcdToDec] gives back every
    value from 0 to 99, and [bcdToDec] followed by [decToBcd] gives back
    every byte whose two nibbles are decimal digits. *)
Theorem bcd_roundtrip :
  (forall v, 0 <= v <= 99 -> RTC.bcdToDec (RTC.decToBcd v) = v)
  /\ (forall h l, 0 <= h <= 9 -> 0 <= l <= 9 ->
        RTC.decToBcd (RTC.bcdToDec (16 * h + l)) = 16 * h + l).
Proof. split; [exact bcd_of_dec|exact dec_of_bcd]. Qed.

(** X15 witness: at 59 and at the byte 0x59. *)
Lemma bcd_roundtrip_witness :
  RTC.bcdToDec (RTC.decToBcd 59) = 59
  /\ RTC.decToBcd (RTC.bcdToDec (16 * 5 + 9)) = 16 * 5 + 9.
Proof.
  split.
  - apply (proj1 bcd_roundtrip). lia.
  - apply (proj2 bcd_roundtrip); lia.
Defined.

(** X16: for a calendar time, the frame [setTime] sends is
    the register address 0 followed by seven bytes from which [getTime]
    reads the same time back. *)
Theorem setTime_getTime (t : RTC.Time) :
  RTC.calendar t ->
  exists data,
    RTC.setTime t = RTC.DS3231_REG_TIME :: data
    /\ length data = 7%nat
    /\ RTC.getTime data = t.
Proof.
  intros (Hs & Hm & Hh & Hd & Hdt & Hmo & Hy).
  eexists. split; [reflexivity|]. split; [reflexivity|].
  destruct t as [s m h d dt mo y]. cbn in *.
  unfold RTC.getTime. cbn [nth].
  f_equal.
  - apply (field_roundtrip 0x7F 60); [vm_compute; reflexivity|lia].
  - apply (field_roundtrip 0x7F 60); [vm_compute; reflexivity|lia].
  - apply (field_roundtrip 0x3F 24); [vm_compute; reflexivity|lia].
  - apply (field_roundtrip 0x07 8); [vm_compute; reflexivity|lia].
  - apply (field_roundtrip 0x3F 32); [vm_compute; reflexivity|lia].
  - apply (field_roundtrip 0x1F 13); [vm_compute; reflexivity|lia].
  - apply Z.eqb_eq.
    apply (forall_below
             (fun v => RTC.bcdToDec (RTC.u8 (RTC.decToBcd v)) =? v) 100);
      [vm_compute; reflexivity|lia].
Qed.

(** X16 witness: at 23:59:58 on Sunday 31 December (20)99. *)
Lemma setTime_getTime_witness :
  exists data,
    RTC.setTime (RTC.mkTime 58 59 23 7 31 12 99) = 0 :: data
    /\ RTC.getTime data = RTC.mkTime 58 59 23 7 31 12 99.
Proof.
  destruct (setTime_getTime (RTC.mkTime 58 59 23 7 31 12 99))
    as (data & H1 & _ & H2).
  - unfold RTC.calendar. cbn. lia.
  - exists data. split; assumption.
Defined.

Section TimeFormat.

(** Every field [getTime] can decode prints in the width its format asks
    for. *)
Lemma masked_field_two_digits (mask x : Z) :
  forallb
    (fun b =>
       (length (RTC.fmt_0d 2 (RTC.bcdToDec (Z.land b mask))) =? 2)%nat)
    (map Z.of_nat (seq 0 256)) = true ->
  length (RTC.fmt_0d 2 (RTC.bcdToDec (Z.land (RTC.u8 x) mask))) = 2%nat.
Proof.
  intros H. pose proof (u8_range x) as Hx.
  apply Nat.eqb_eq.
  refine (forall_below _ 256 H (RTC.u8 x) _).
  change (Z.of_nat 256) with 256. exact Hx.
Qed.

Lemma year_four_digits (x : Z) :
  length (RTC.fmt_0d 4 (2000 + RTC.bcdToDec (RTC.u8 x))) = 4%nat.
Proof.
  pose proof (u8_range x) as Hx.
  apply Nat.eqb_eq.
  apply (forall_below
           (fun b => (length (RTC.fmt_0d 4 (2000 + RTC.bcdToDec b)) =? 4)%nat)
           256); [vm_compute; reflexivity|lia].
Qed.

End TimeFormat.

(** X17: whatever seven bytes the clock chip returns, the
    time string is exactly eight characters, well inside the 16 bytes of
    the buffer [sprintf] writes it to. *)
Theorem getTimeStr_length (data : list Z) :
  length (RTC.getTimeStr data) = 8%nat.
Proof.
  unfold RTC.getTimeStr, RTC.getTime.
  cbn [RTC.hour RTC.min RTC.sec].
  rewrite !length_app.
  rewrite !masked_field_two_digits by (vm_compute; reflexivity).
  reflexivity.
Qed.

(** X18: whatever the clock chip returns, the time stamp of a
    log line is exactly nineteen characters, so the line is the event text
    plus twenty-three characters, cut at the 511 that fit the buffer; an
    event of at most 488 characters is written whole, newline included. *)
Theorem logLine_length (data : list Z) (event : list ascii) :
  length (RTC.logLine data event)
  = Nat.min 511 (23 + length (cstr event))
  /\ ((length (cstr event) <= 488)%nat ->
      exists stamp,
        length stamp = 19%nat
        /\ RTC.logLine data event
           = stamp ++ [" "; "-"; " "]%char ++ cstr event ++ ["010"%char]).
Proof.
  unfold RTC.logLine, RTC.getTime.
  cbn [RTC.year RTC.month RTC.date RTC.hour RTC.min RTC.sec].
  set (y := RTC.fmt_0d 4 _). set (mo := RTC.fmt_0d 2 _).
  set (d := RTC.fmt_0d 2 _). set (h := RTC.fmt_0d 2 _).
  set (mi := RTC.fmt_0d 2 _). set (s := RTC.fmt_0d 2 _).
  assert (Hy : length y = 4%nat) by apply year_four_digits.
  assert (Hmo : length mo = 2%nat)
    by (apply masked_field_two_digits; vm_compute; reflexivity).
  assert (Hd : length d = 2%nat)
    by (apply masked_field_two_digits; vm_compute; reflexivity).
  assert (Hh : length h = 2%nat)
    by (apply masked_field_two_digits; vm_compute; reflexivity).
  assert (Hmi : length mi = 2%nat)
    by (apply masked_field_two_digits; vm_compute; reflexivity).
  assert (Hs : length s = 2%nat)
    by (apply masked_field_two_digits; vm_compute; reflexivity).
  split.
  - rewrite length_take, !length_app. cbn [length]. lia.
  - intros Hev.
    exists (y ++ ["-"%char] ++ mo ++ ["-"%char] ++ d ++ [" "%char]
              ++ h ++ [":"%char] ++ mi ++ [":"%char] ++ s).
    split; [rewrite !length_app; cbn [length]; lia|].
    rewrite take_ge.
    + rewrite <- !app_assoc. reflexivity.
    + rewrite !length_app. cbn [length]. lia.
Qed.

(** X18 witness: for the longest event text the controller logs. *)
Lemma logLine_length_witness :
  exists stamp,
    length stamp = 19%nat
    /\ RTC.logLine [0x58; 0x59; 0x23; 7; 0x31; 0x12; 0x99]
         (typed "Wrong Code Entry During Alarm")
       = stamp ++ typed " - Wrong Code Entry During Alarm"
           ++ ["010"%char].
Proof.
  destruct (proj2 (logLine_length [0x58; 0x59; 0x23; 7; 0x31; 0x12; 0x99]
                     (typed "Wrong Code Entry During Alarm")))
    as (stamp & H1 & H2).
  - vm_compute. lia.
  - exists stamp. split; [exact H1|]. rewrite H2. reflexivity.
Defined.

(** ** Keypad matrix *)

(** X19: for each of the four rows, the byte
    written to GPIOB keeps the four column bits of the byte just read and
    has, among the four row bits, only the bit of that row low. *)
Theorem setKeypadRow_drives_one_row (row g : Z) :
  0 <= row <= 3 ->
  let v := Keypad.setKeypadRow row g in
  0 <= v < 256
  /\ Z.land v 0xF0 = Z.land (RTC.u8 g) 0xF0
  /\ Z.land v 0x0F = 15 - 2 ^ row
  /\ forall r, 0 <= r <= 3 -> Z.testbit v r = negb (r =? row).
Proof.
  intros Hrow v. subst v.
  pose proof (u8_range g) as Hg.
  assert (Hb : forallb (fun b =>
      forallb (fun row =>
        let v := Keypad.setKeypadRow row b in
        (0 <=? v) && (v <? 256)
        && (Z.land v 0xF0 =? Z.land b 0xF0)
        && (Z.land v 0x0F =? 15 - 2 ^ row)
        && forallb (fun r => Bool.eqb (Z.testbit v r) (negb (r =? row)))
             [0; 1; 2; 3])
        [0; 1; 2; 3])
      (map Z.of_nat (seq 0 256)) = true) by (vm_compute; reflexivity).
  pose proof (forall_below _ 256 Hb (RTC.u8 g) Hg) as H. cbv beta in H.
  rewrite forallb_forall in H.
  assert (Hin : In row [0; 1; 2; 3]) by (cbn; lia).
  specialize (H row Hin). cbv zeta in H.
  assert (Hu : Keypad.setKeypadRow row (RTC.u8 g) = Keypad.setKeypadRow row g).
  { unfold Keypad.setKeypadRow, RTC.u8. rewrite Z.mod_mod by lia.
    reflexivity. }
  rewrite Hu in H.
  apply andb_true_iff in H as [H Hbits].
  apply andb_true_iff in H as [H Hlow].
  apply andb_true_iff in H as [H Hhigh].
  apply andb_true_iff in H as [Hge Hlt].
  apply Z.leb_le in Hge. apply Z.ltb_lt in Hlt.
  apply Z.eqb_eq in Hlow, Hhigh.
  split; [lia|]. split; [exact Hhigh|]. split; [exact Hlow|].
  intros r Hr. rewrite forallb_forall in Hbits.
  apply Bool.eqb_prop, Hbits. cbn. lia.
Qed.

Section Scan.

Lemma firstLow_in (cols : Z) (cands : list Z) (col : Z) :
  Keypad.firstLow cols cands = Some col -> In col cands.
Proof.
  induction cands as [|c cands IH]; cbn; [discriminate|].
  case_match; [intros [= ->]; auto|auto].
Qed.

Lemma readKeypadCols_range (g : Z) : 0 <= Keypad.readKeypadCols g <= 15.
Proof.
  pose proof (u8_range g) as Hg.
  assert (H : forallb (fun b => (0 <=? Keypad.readKeypadCols b)
                                && (Keypad.readKeypadCols b <=? 15))
                (map Z.of_nat (seq 0 256)) = true) by (vm_compute; reflexivity).
  pose proof (forall_below _ 256 H (RTC.u8 g) Hg) as Hb. cbv beta in Hb.
  assert (Hu : Keypad.readKeypadCols (RTC.u8 g) = Keypad.readKeypadCols g).
  { unfold Keypad.readKeypadCols, RTC.u8. rewrite Z.mod_mod by lia.
    reflexivity. }
  rewrite Hu in Hb. apply andb_true_iff in Hb as [H1 H2].
  apply Z.leb_le in H1, H2. lia.
Qed.

(** A column nibble other than 0xF has a low bit: the inner loop always
    finds a column. *)
Lemma firstLow_some (cols : Z) :
  0 <= cols <= 15 -> cols <> 15 ->
  exists col, Keypad.firstLow cols [0; 1; 2; 3] = Some col.
Proof.
  intros Hc Hn.
  assert (H : forallb (fun c =>
                match Keypad.firstLow c [0; 1; 2; 3] with
                | Some _ => true | None => false end)
                (map Z.of_nat (seq 0 15)) = true) by (vm_compute; reflexivity).
  pose proof (forall_below _ 15 H cols ltac:(lia)) as Hb. cbv beta in Hb.
  destruct (Keypad.firstLow cols [0; 1; 2; 3]) as [col|]; [|discriminate].
  exists col. reflexivity.
Qed.

Lemma key_at_in (row col : Z) :
  0 <= row <= 3 -> In col [0; 1; 2; 3] ->
  In (Keypad.key_at row col) Keypad.keyChars
  /\ Keypad.key_at row col <> NUL.
Proof.
  intros Hr Hc.
  assert (Hrow : row = 0 \/ row = 1 \/ row = 2 \/ row = 3) by lia.
  cbn in Hc.
  destruct Hrow as [-> | [-> | [-> | ->]]];
    destruct Hc as [<- | [<- | [<- | [<- | []]]]];
    (split; [vm_compute; tauto|discriminate]).
Qed.

Lemma scanRows_key (rows : list Z) :
  forall reads writes key rest writes',
    Forall (fun r => 0 <= r <= 3) rows ->
    Keypad.scanRows rows reads writes = Keypad.Scanned key rest writes' ->
    key = NUL \/ In key Keypad.keyChars.
Proof.
  induction rows as [|row rows IH]; intros reads w key rest w' Hr H;
    cbn [Keypad.scanRows] in H.
  - injection H as <- _ _. left. reflexivity.
  - apply Forall_cons in Hr as [Hrow Hr].
    repeat case_match; try discriminate; try (eapply IH; eassumption).
    injection H as <- _ _. right.
    apply key_at_in; [assumption|eapply firstLow_in; eassumption].
Qed.

Lemma scanRows_skip (row : Z) (rows : list Z) (a b : Z) reads writes :
  Keypad.readKeypadCols b = 15 ->
  Keypad.scanRows (row :: rows) (a :: b :: reads) writes
  = Keypad.scanRows rows reads
      (writes ++ [(Keypad.GPIOB, Keypad.setKeypadRow row a)]).
Proof. intros H. cbn [Keypad.scanRows]. rewrite H. reflexivity. Qed.

Lemma scanRows_hit (row col : Z) (rows : list Z) (a b : Z) reads writes :
  Keypad.firstLow (Keypad.readKeypadCols b) [0; 1; 2; 3] = Some col ->
  Keypad.scanRows (row :: rows) (a :: b :: reads) writes
  = match Keypad.waitRelease col reads with
    | Some reads' =>
        Keypad.Scanned (Keypad.key_at row col) reads'
          (writes ++ [(Keypad.GPIOB, Keypad.setKeypadRow row a)])
    | None =>
        Keypad.Waiting (writes ++ [(Keypad.GPIOB, Keypad.setKeypadRow row a)])
    end.
Proof.
  intros H. cbn [Keypad.scanRows]. rewrite H.
  destruct (Z.eqb_spec (Keypad.readKeypadCols b) 15) as [E|_];
    [|reflexivity].
  rewrite E in H. vm_compute in H. discriminate.
Qed.

Lemma waitRelease_held (col : Z) (held : list Z) (g : Z) (rest : list Z) :
  Forall (fun h => Keypad.columnLow (Keypad.readKeypadCols h) col = true)
    held ->
  (Keypad.columnLow (Keypad.readKeypadCols g) col = false ->
   Keypad.waitRelease col (held ++ g :: rest) = Some rest)
  /\ Keypad.waitRelease col held = None.
Proof.
  induction held as [|h held IH]; intros Hh.
  - split; [|reflexivity]. intros Hg. cbn. rewrite Hg. reflexivity.
  - apply Forall_cons in Hh as [Hh1 Hh]. cbn. rewrite Hh1.
    apply IH, Hh.
Qed.

Lemma scanRows_idle_prefix (idle : list (Z * Z)) :
  forall rows reads writes,
    Forall Keypad.idleRow idle -> (length idle <= length rows)%nat ->
    exists writes',
      Keypad.scanRows rows (Keypad.idleReads idle ++ reads) writes
      = Keypad.scanRows (drop (length idle) rows) reads writes'.
Proof.
  induction idle as [|[a b] idle IH]; intros rows reads w Hi Hl.
  - exists w. reflexivity.
  - apply Forall_cons in Hi as [Hab Hi].
    destruct rows as [|row rows]; [cbn in Hl; lia|].
    cbn [Keypad.idleReads flat_map fst snd app length drop].
    rewrite scanRows_skip by exact Hab.
    apply IH; [exact Hi|cbn in Hl; lia].
Qed.

End Scan.

(** X20: a scan that returns hands back either 0 or one of
    the sixteen characters of the key table, and it returns 0 exactly when
    it made four row writes and all four column reads came back 0xF. *)
Theorem scanKeypad_key (reads : list Z) (key : ascii) (rest : list Z)
    (writes : list (Z * Z)) :
  Keypad.scanKeypad reads = Keypad.Scanned key rest writes ->
  (key = NUL \/ In key Keypad.keyChars)
  /\ (key = NUL <->
      exists a0 b0 a1 b1 a2 b2 a3 b3,
        reads = [a0; b0; a1; b1; a2; b2; a3; b3] ++ rest
        /\ Forall Keypad.idleRow [(a0, b0); (a1, b1); (a2, b2); (a3, b3)]
        /\ writes = [ (Keypad.GPIOB, Keypad.setKeypadRow 0 a0);
                      (Keypad.GPIOB, Keypad.setKeypadRow 1 a1);
                      (Keypad.GPIOB, Keypad.setKeypadRow 2 a2);
                      (Keypad.GPIOB, Keypad.setKeypadRow 3 a3) ]).
Proof.
  intros H. split.
  - eapply scanRows_key; [|exact H]. repeat constructor; lia.
  - split.
    + intros ->. unfold Keypad.scanKeypad in H. cbn [Keypad.scanRows] in H.
      repeat match type of H with
      | context [match ?x with _ => _ end] =>
          let E := fresh "E" in destruct x eqn:E; try discriminate
      end;
      try match goal with
        | E : Keypad.firstLow _ _ = Some ?c |- _ =>
            injection H as Hk _ _;
            apply firstLow_in in E;
            exfalso; eapply key_at_in; [|exact E|exact Hk]; lia
        end;
      try match goal with
        | E : Keypad.firstLow (Keypad.readKeypadCols ?g) _ = None,
          E' : negb (Keypad.readKeypadCols ?g =? 15) = true |- _ =>
            exfalso; bools;
            destruct (firstLow_some (Keypad.readKeypadCols g)
                        (readKeypadCols_range g) E') as [c Hc];
            congruence
        end.
      injection H as <- <-. bools.
      do 8 eexists. split; [reflexivity|]. split; [|reflexivity].
      repeat constructor; assumption.
    + intros (a0 & b0 & a1 & b1 & a2 & b2 & a3 & b3 & -> & Hi & ->).
      repeat (apply Forall_cons in Hi as [? Hi]).
      unfold Keypad.scanKeypad in H. cbn [app] in H.
      rewrite !scanRows_skip in H by assumption.
      cbn in H. injection H as <-. reflexivity.
Qed.

(** X21: with the rows before it reading idle, the row
    whose column read shows a low bit decides the scan: once that column
    reads high again the scan returns the table entry for that row and the
    lowest low column, and it consumes the reads up to and including the
    releasing one; while the observed reads all show the column low the
    scan has not returned. *)
Theorem scanKeypad_key_press (idle : list (Z * Z)) (a b col : Z)
    (held : list Z) :
  (length idle <= 3)%nat ->
  Forall Keypad.idleRow idle ->
  Keypad.firstLow (Keypad.readKeypadCols b) [0; 1; 2; 3] = Some col ->
  Forall (fun h => Keypad.columnLow (Keypad.readKeypadCols h) col = true)
    held ->
  (forall g rest,
      Keypad.columnLow (Keypad.readKeypadCols g) col = false ->
      exists writes,
        Keypad.scanKeypad (Keypad.idleReads idle ++ a :: b :: held ++ g :: rest)
        = Keypad.Scanned (Keypad.key_at (Z.of_nat (length idle)) col) rest
            writes)
  /\ exists writes,
       Keypad.scanKeypad (Keypad.idleReads idle ++ a :: b :: held)
       = Keypad.Waiting writes.
Proof.
  intros Hlen Hidle Hcol Hheld.
  assert (Hrows : drop (length idle) [0; 1; 2; 3]
                  = Z.of_nat (length idle)
                    :: drop (S (length idle)) [0; 1; 2; 3]).
  { destruct idle as [|? [|? [|? [|? ?]]]]; cbn in Hlen |- *;
      try reflexivity; lia. }
  destruct (waitRelease_held col held 0 [] Hheld) as [_ Hwait].
  split.
  - intros g rest Hg.
    destruct (waitRelease_held col held g rest Hheld) as [Hrel _].
    destruct (scanRows_idle_prefix idle [0; 1; 2; 3]
                (a :: b :: held ++ g :: rest) [] Hidle)
      as [w E]; [cbn; lia|].
    unfold Keypad.scanKeypad. rewrite E, Hrows.
    rewrite (scanRows_hit _ col) by exact Hcol.
    rewrite Hrel by exact Hg. eexists. reflexivity.
  - destruct (scanRows_idle_prefix idle [0; 1; 2; 3] (a :: b :: held) []
                Hidle) as [w E]; [cbn; lia|].
    unfold Keypad.scanKeypad. rewrite E, Hrows.
    rewrite (scanRows_hit _ col) by exact Hcol.
    rewrite Hwait. eexists. reflexivity.
Qed.

(** X21 witness: for '8' (row 2, column 1), held for two
    polls. *)
Lemma scanKeypad_key_press_witness :
  exists writes,
    Keypad.scanKeypad
      [0xFF; 0xFE; 0xFE; 0xFD; 0xFD; 0xDB; 0xDB; 0xDB; 0xFB; 0x11]
    = Keypad.Scanned "8" [0x11] writes.
Proof.
  destruct (scanKeypad_key_press [(0xFF, 0xFE); (0xFE, 0xFD)] 0xFD 0xDB 1
              [0xDB; 0xDB]) as [H _].
  - cbn. lia.
  - repeat constructor.
  - reflexivity.
  - repeat constructor.
  - destruct (H 0xFB [0x11]) as [w E]; [reflexivity|].
    exists w. exact E.
Defined.

(** X20 witness: on an idle keypad. *)
Lemma scanKeypad_key_witness :
  Keypad.scanKeypad [0xFF; 0xFE; 0xFE; 0xFD; 0xFD; 0xFB; 0xFB; 0xF7]
  = Keypad.Scanned NUL []
      [(Keypad.GPIOB, 0xFE); (Keypad.GPIOB, 0xFD);
       (Keypad.GPIOB, 0xFB); (Keypad.GPIOB, 0xF7)]
  /\ (NUL = NUL \/ In NUL Keypad.keyChars).
Proof.
  assert (E : Keypad.scanKeypad
                [0xFF; 0xFE; 0xFE; 0xFD; 0xFD; 0xFB; 0xFB; 0xF7]
              = Keypad.Scanned NUL []
                  [(Keypad.GPIOB, 0xFE); (Keypad.GPIOB, 0xFD);
                   (Keypad.GPIOB, 0xFB); (Keypad.GPIOB, 0xF7)])
    by (vm_compute; reflexivity).
  split; [exact E|].
  exact (proj1 (scanKeypad_key _ _ _ _ E)).
Defined.

(** ** SD card *)

Lemma writeAll_unmounted (ws : list (SDCard.Media * Z)) card :
  SDCard.mounted card = false ->
  SDCard.writeAll ws card = (replicate (length ws) false, card).
Proof.
  intros H. induction ws as [|[m n] ws IH]; cbn [SDCard.writeAll]; auto.
  unfold SDCard.writeData. rewrite H. cbn [negb]. rewrite IH. reflexivity.
Qed.

(** X22: [initialize] returns true exactly
    when the block device, the mount and the test [fopen] all succeed, and
    its result is the mounted flag it leaves.  When it fails it has
    released what it had acquired, in reverse order; every later
    [writeData] returns false without touching the file system, and the
    destructor makes no call either. *)
Theorem sd_failed_initialize_is_inert (m : SDCard.Media)
    (ws : list (SDCard.Media * Z)) :
  let (ok, card) := SDCard.initialize m SDCard.fresh in
  SDCard.mounted card = ok
  /\ (ok = true <->
      SDCard.init_err m = 0 /\ SDCard.mount_err m = 0
      /\ SDCard.file_opens m = true)
  /\ (ok = false ->
      (SDCard.calls card = [SDCard.BdInit]
       \/ SDCard.calls card
          = [SDCard.BdInit; SDCard.FsMount; SDCard.BdDeinit]
       \/ SDCard.calls card
          = [SDCard.BdInit; SDCard.FsMount; SDCard.Fopen;
             SDCard.FsUnmount; SDCard.BdDeinit])
      /\ SDCard.writeAll ws card = (replicate (length ws) false, card)
      /\ SDCard.destroy card = card).
Proof.
  unfold SDCard.initialize.
  destruct (Z.eqb_spec (SDCard.init_err m) 0) as [Hi|Hi]; cbn [negb].
  - destruct (Z.eqb_spec (SDCard.mount_err m) 0) as [Hm|Hm]; cbn [negb].
    + destruct (SDCard.file_opens m) eqn:Hf; cbn [negb].
      * split; [reflexivity|]. split; [tauto|discriminate].
      * split; [reflexivity|]. split; [split; [discriminate|]|].
        -- intros (_ & _ & H). discriminate.
        -- intros _. split; [auto|].
           split; [apply writeAll_unmounted|]; reflexivity.
    + split; [reflexivity|]. split; [split; [discriminate|tauto]|].
      intros _. split; [auto|].
      split; [apply writeAll_unmounted|]; reflexivity.
  - split; [reflexivity|]. split; [split; [discriminate|tauto]|].
    intros _. split; [auto|].
    split; [apply writeAll_unmounted|]; reflexivity.
Qed.

(** X22 witness: on a card whose file cannot be
    opened, followed by two writes. *)
Lemma sd_failed_initialize_is_inert_witness :
  let m := {| SDCard.init_err := 0; SDCard.mount_err := 0;
              SDCard.file_opens := false; SDCard.written := 0 |} in
  fst (SDCard.writeAll [(m, 40); (m, 12)]
         (snd (SDCard.initialize m SDCard.fresh)))
  = [false; false].
Proof.
  intros m.
  pose proof (sd_failed_initialize_is_inert m [(m, 40); (m, 12)]) as H.
  destruct (SDCard.initialize m SDCard.fresh) as [ok card] eqn:E.
  destruct H as (_ & _ & H).
  assert (Hok : ok = false) by (vm_compute in E; congruence).
  destruct (H Hok) as (_ & Hw & _).
  cbn [snd]. rewrite Hw. reflexivity.
Defined.

(** X7 witness: for 'B' at power-up, with stale digits typed
    before the command key. *)
Lemma command_code_hash_witness :
  exists s',
    pressKeys ("B"%char :: typed "2580#")
      (final (pressKeys (typed "97") initial [])) []
    = Returned s' []
    /\ currentState s' = ARMED_AWAY.
Proof.
  destruct (command_code_hash "B" (final (pressKeys (typed "97") initial []))
              []) as (s' & E & H & _).
  - left. vm_compute. discriminate.
  - right; left. split; [reflexivity|vm_compute; discriminate].
  - exists s'. split; [exact E|exact H].
Defined.

(** X8 witness: for A 1 2 3 4 # at power-up. *)
Lemma wrong_code_refused_witness :
  exists s',
    pressKeys ("A"%char :: typed "1234" ++ ["#"%char]) initial []
    = Returned s' []
    /\ currentState s' = DISARMED
    /\ logged s' = [].
Proof.
  destruct (wrong_code_refused "A" (typed "1234") initial [])
    as (s' & E & H1 & _ & _ & _ & _ & _ & H2).
  - left. discriminate.
  - left. split; [reflexivity|discriminate].
  - split; [reflexivity|]. split; [repeat constructor|discriminate].
  - exists s'. split; [exact E|]. split; [exact H1|exact H2].
Defined.

(** X9 witness: for a '7' typed after A 1 2. *)
Lemma digit_then_star_restores_witness :
  let s := final (pressKeys (typed "A12") initial []) in
  exists s',
    pressKeys (typed "7*") s [] = Returned s' []
    /\ inputCode s' = ["1"%char; "2"%char; NUL; NUL; NUL]
    /\ codeIndex s' = 2.
Proof.
  intros s.
  destruct (digit_then_star_restores "7" s []) as (s' & E & H1 & H2 & _).
  - unfold wfBuffer.
    replace (codeIndex s) with 2 by (vm_compute; reflexivity).
    replace (inputCode s) with ["1"%char; "2"%char; NUL; NUL; NUL]
      by (vm_compute; reflexivity).
    split; [lia|]. exists ["1"; "2"]%char. repeat split. repeat constructor.
  - vm_compute. reflexivity.
  - reflexivity.
  - exists s'. split; [exact E|]. rewrite H1, H2.
    split; vm_compute; reflexivity.
Defined.

(** X10 witness: on the door opening at 7000 ms after
    arming away. *)
Lemma door_edge_starts_entry_delay_witness :
  let away := final (run (replicate 6 (quiet 0)) initial (typed "B2580#")) in
  exists s',
    checkDoor (doorOpen 7000) away [] = Returned s' []
    /\ entryDelayActive s' = true
    /\ entryDelayStart s' = 7000.
Proof.
  intros away.
  destruct (door_edge_starts_entry_delay (doorOpen 7000) away [])
    as (s' & E & _ & _ & H & _).
  - reflexivity.
  - destruct H as (H1 & H2 & _); [reflexivity|reflexivity|].
    exists s'. split; [exact E|]. split; [exact H1|exact H2].
Defined.

(** X11 witness: on a second call 10 ms after a first. *)
Lemma measureDistance_range_witness :
  measureDistance 5010 (Some 7%Q)
    (snd (measureDistance 5000 (Some 7%Q) initial))
  = (400%Q, snd (measureDistance 5000 (Some 7%Q) initial)).
Proof.
  apply (measureDistance_range 5010 (Some 7%Q)
           (snd (measureDistance 5000 (Some 7%Q) initial))).
  vm_compute. reflexivity.
Defined.

(** X12 witness: on an object at 7 cm, two seconds after
    arming away, and on the same reading while an entry delay runs. *)
Lemma window_breach_in_away_mode_witness :
  let away := final (run (replicate 6 (quiet 0)) initial (typed "B2580#")) in
  (exists s', checkUltrasonic (reading 7 2000) away [] = Sounding s'
              /\ currentState s' = ALARM)
  /\ checkUltrasonic (reading 7 2000)
       (away |> set_entryDelayActive true) []
     = Returned (away |> set_entryDelayActive true) [].
Proof.
  intros away. split.
  - destruct (proj1 (window_breach_in_away_mode (reading 7 2000) away 7
                       eq_refl))
      as [H _]; try reflexivity.
    + vm_compute. discriminate.
    + destruct H as (s' & E & Hs & _); [vm_compute; discriminate|].
      exists s'. split; [exact E|exact Hs].
  - apply (proj2 (window_breach_in_away_mode (reading 7 2000)
                    (away |> set_entryDelayActive true) 7 eq_refl)).
    reflexivity.
Defined.

(** X19 witness: for row 2 with the columns reading
    0xB. *)
Lemma setKeypadRow_drives_one_row_witness :
  Z.land (Keypad.setKeypadRow 2 0xBF) 0x0F = 15 - 2 ^ 2.
Proof.
  apply (setKeypadRow_drives_one_row 2 0xBF). lia.
Defined.
